(** * Magic Transporter: the mover lifecycle, checked against its code

    A shallow embedding of the TypeScript sources of the Magic Mover
    service: the state machine ([utils/stateMachine.util.ts]), the Mongoose
    schemas, the three repositories, the two services and the HTTP layer
    (request validation, controllers, response helper), followed by the
    properties of the design document that are settled on them and by
    further properties of the code: what holds in every database that the
    calls reach, how the calls compose, and what a request is answered
    with.

    Conventions of the embedding.
    - A JavaScript [number] is an exact rational ([Q]); rounding of IEEE
      doubles is outside the model.
    - A JavaScript [string] is a Rocq [string]; [String.prototype.trim] is
      modelled on the ASCII white space characters.  An identifier is any
      string: the casting of strings to ObjectId is not modelled.
    - A MongoDB collection is a finite map from [_id] to document; the
      activity log, whose order and time stamps matter, is a list in
      insertion order.  The [_id] that the driver generates for a new
      document and the clock value that becomes [createdAt] are inputs of
      the operations that need them.
    - An [async] function is a tree of atomic database round trips, one per
      [await] on the database.  [run] executes one call alone; [interleave]
      executes two calls under a schedule of the event loop.  Every result
      comes with the database the call leaves behind, so that what a
      rejected call has written can be stated. *)

From Stdlib Require Import QArith Qminmax Lqa.
From stdpp Require Import base option list gmap strings sorting.

Open Scope string_scope.
Open Scope list_scope.

(** ** enums *)

Inductive MagicMoverState : Set := RESTING | LOADING | ON_MISSION.

Module ActivityType.
Inductive t : Set := LOADING | UNLOADING | MISSION_STARTED | MISSION_ENDED.
End ActivityType.

#[global] Instance MagicMoverState_eq_dec : EqDecision MagicMoverState.
Proof. solve_decision. Defined.

#[global] Instance ActivityType_eq_dec : EqDecision ActivityType.t.
Proof. solve_decision. Defined.

(** The string value of each enum member, as the enum declares it. *)
Definition MagicMoverState_value (s : MagicMoverState) : string :=
  match s with
  | RESTING => "resting"
  | LOADING => "loading"
  | ON_MISSION => "on-mission"
  end.

(** ** Errors

    The code throws plain [Error] objects and tells them apart by their
    message.  Each constructor is one [throw] site (or one error of the
    Mongoose library that the code handles); its arguments are the values
    interpolated into the message. *)

Inductive Error : Type :=
  | MoverNotFound
  | ItemsNotFound (missingItemIds : list string)
  | InvalidStateTransition (act : string) (currentState targetState : MagicMoverState)
  | DuplicateItems (duplicates : list string)
  | WeightLimitExceeded (current adding limit : Q)
  | ConcurrentModification
  | MustBeOnMission
  | FailedTo (what : string)
  | ValidationFailed (constraints : list string)
  | BadRequest (text : string)
  | MongooseValidationError (paths : list string)
  | MongooseVersionError
  | MongooseDocumentNotFoundError
  | MongoDuplicateKey.

(** [error.message] of the errors that the code itself raises; [show] is
    JavaScript's conversion of a number to a string.  The text of an error
    raised by Mongoose or MongoDB is the library's. *)
Definition message (show : Q -> string) (e : Error) : option string :=
  (match e with
   | MoverNotFound => Some "Magic Mover not found"
   | ItemsNotFound missing => Some ("Items not found: " ++ String.concat ", " missing)
   | InvalidStateTransition act cur tgt =>
       Some ("Invalid state transition: Cannot " ++ act ++ " from "
             ++ MagicMoverState_value cur ++ " to " ++ MagicMoverState_value tgt)
   | DuplicateItems duplicates =>
       Some ("Duplicate items detected: " ++ String.concat ", " duplicates)
   | WeightLimitExceeded current adding limit =>
       Some ("Weight limit exceeded. Current: " ++ show current ++ ", Adding: "
             ++ show adding ++ ", Limit: " ++ show limit)
   | ConcurrentModification =>
       Some "Concurrent modification detected. Please retry the operation."
   | MustBeOnMission => Some "Magic Mover must be on mission to end a mission"
   | FailedTo what => Some ("Failed to " ++ what)
   | ValidationFailed constraints =>
       Some ("Validation failed: " ++ String.concat ", " constraints)
   | BadRequest text => Some text
   | MongooseValidationError _ | MongooseVersionError
   | MongooseDocumentNotFoundError | MongoDuplicateKey => None
   end)%string.

(** ** Documents (database/schemas) *)

Module MagicItem.
Record IMagicItem : Type := { name : string; weight : Q }.
End MagicItem.
Export MagicItem(IMagicItem).

Record IMagicMover : Type := {
  name : option string;
  weightLimit : Q;
  currentWeight : Q;
  state : MagicMoverState;
  items : list string;
  completedMissions : Q;
  (** Mongoose's version key [__v]; absent when the schema disables it. *)
  __v : option nat;
}.

Record ActivityDetails : Type := {
  previousState : option string;
  newState : option string;
  itemIds : option (list string);
  itemCount : option nat;
  totalWeight : option Q;
  missionsCompleted : option Q;   (* [details.completedMissions] *)
}.

Record IActivityLog : Type := {
  moverId : string;
  activityType : ActivityType.t;
  details : ActivityDetails;
  createdAt : Z;
}.

(** The object spread [{ ...base, ...additional }]: a key of [additional]
    that is present wins. *)
Definition spread (base additional : ActivityDetails) : ActivityDetails :=
  {| previousState := previousState additional ∪ previousState base;
     newState := newState additional ∪ newState base;
     itemIds := itemIds additional ∪ itemIds base;
     itemCount := itemCount additional ∪ itemCount base;
     totalWeight := totalWeight additional ∪ totalWeight base;
     missionsCompleted := missionsCompleted additional ∪ missionsCompleted base |}.

(** The second argument of [new Schema(..)]. *)
Record SchemaOptions : Set := { timestamps : bool; versionKey : bool }.

Definition MagicMoverSchema_options : SchemaOptions :=
  {| timestamps := true; versionKey := false |}.

Definition MagicItemSchema_options : SchemaOptions :=
  {| timestamps := true; versionKey := false |}.

(** ** The database and the computations on it *)

Record DB : Type := {
  MagicMoverModel : gmap string IMagicMover;
  MagicItemModel : gmap string IMagicItem;
  ActivityLogModel : list IActivityLog;
}.

Definition emptyDB : DB :=
  {| MagicMoverModel := ∅; MagicItemModel := ∅; ActivityLogModel := [] |}.

(** An [async] function is a tree of database round trips: between two
    [await]s the code runs without interruption, and at each [await] on the
    database one operation [io] is executed atomically and the function
    resumes with its result.  A [Settled] promise is resolved ([inr]) or
    rejected ([inl]). *)
Inductive Promise (A : Type) : Type :=
  | Settled (r : Error + A)
  | Await {X : Type} (io : DB -> X * DB) (k : X -> Promise A).

Arguments Settled {A} r.
Arguments Await {A X} io k.

Definition resolve {A} (a : A) : Promise A := Settled (inr a).

Definition reject {A} (e : Error) : Promise A := Settled (inl e).

(** One round trip whose result may be an error. *)
Definition perform {A} (io : DB -> (Error + A) * DB) : Promise A :=
  Await io Settled.

(** A read-only round trip. *)
Definition query {A} (read : DB -> A) : Promise A :=
  Await (fun db => (read db, db)) resolve.

Fixpoint bind {A B} (c : Promise A) (k : A -> Promise B) : Promise B :=
  match c with
  | Settled (inl e) => Settled (inl e)
  | Settled (inr a) => k a
  | Await io k' => Await io (fun x => bind (k' x) k)
  end.

(** [try { c } catch (error) { handler(error) }] *)
Fixpoint tryCatch {A} (c : Promise A) (handler : Error -> Promise A) : Promise A :=
  match c with
  | Settled (inl e) => handler e
  | Settled (inr a) => Settled (inr a)
  | Await io k' => Await io (fun x => tryCatch (k' x) handler)
  end.

Notation "'await' x <- c1 ; c2" := (bind c1 (fun x => c2))
  (at level 10, x name, c1 at level 100, c2 at level 200,
   format "'[v' 'await'  x  <-  c1 ; '/' c2 ']'").

(** A synchronous function that may throw. *)
Definition lift {A} (r : Error + A) : Promise A := Settled r.

(** Running one call to completion with nothing else in between. *)
Fixpoint run {A} (c : Promise A) (db : DB) : (Error + A) * DB :=
  match c with
  | Settled r => (r, db)
  | Await io k => let '(x, db') := io db in run (k x) db'
  end.

(** The event loop resumes a call: its next round trip is executed and
    the call goes on to its next [await]; a settled call stays as it is. *)
Definition resume {A} (c : Promise A) (db : DB) : Promise A * DB :=
  match c with
  | Settled _ => (c, db)
  | Await io k => let '(x, db') := io db in (k x, db')
  end.

(** Two calls in flight at once.  The schedule says which call the event
    loop resumes at each step ([true]: the first); when the schedule is
    used up the first call runs to completion, then the second. *)
Fixpoint interleave {A B} (schedule : list bool) (c1 : Promise A) (c2 : Promise B)
    (db : DB) : (Error + A) * (Error + B) * DB :=
  match schedule with
  | [] =>
      let '(r1, db1) := run c1 db in
      let '(r2, db2) := run c2 db1 in
      (r1, r2, db2)
  | true :: schedule' =>
      let '(c1', db') := resume c1 db in interleave schedule' c1' c2 db'
  | false :: schedule' =>
      let '(c2', db') := resume c2 db in interleave schedule' c1 c2' db'
  end.

(** ** String.prototype.trim, used by the [trim: true] schema option *)

Definition isWhiteSpace (c : Ascii.ascii) : bool :=
  match Ascii.nat_of_ascii c with
  | 9%nat | 10%nat | 11%nat | 12%nat | 13%nat | 32%nat => true
  | _ => false
  end.

Fixpoint trimStart (s : string) : string :=
  match s with
  | String c s' => if isWhiteSpace c then trimStart s' else s
  | EmptyString => EmptyString
  end.

Definition trim (s : string) : string :=
  String.rev (trimStart (String.rev (trimStart s))).

(** ** utils/stateMachine.util.ts *)

Module MagicMoverStateMachine.

Record StateTransition : Set := {
  from : MagicMoverState;
  to : MagicMoverState;
  action : string;
}.

Definition TRANSITIONS : list StateTransition :=
  [ {| from := RESTING; to := LOADING; action := "load" |};
    {| from := LOADING; to := LOADING; action := "load" |};
    {| from := LOADING; to := ON_MISSION; action := "start_mission" |};
    {| from := LOADING; to := RESTING; action := "unload" |};
    {| from := ON_MISSION; to := RESTING; action := "end_mission" |} ].

(** [TRANSITIONS.some(t => t.from === currentState && t.to === targetState
    && t.action === action)] *)
Definition canTransition (currentState targetState : MagicMoverState)
    (act : string) : bool :=
  existsb (fun transition =>
             bool_decide (from transition = currentState)
             && bool_decide (to transition = targetState)
             && bool_decide (action transition = act))
          TRANSITIONS.

Definition validateTransition (currentState targetState : MagicMoverState)
    (act : string) : Error + unit :=
  if negb (canTransition currentState targetState act)
  then inl (InvalidStateTransition act currentState targetState)
  else inr tt.

Definition getAllowedTransitions (currentState : MagicMoverState)
    : list StateTransition :=
  List.filter (fun transition => bool_decide (from transition = currentState))
              TRANSITIONS.

Definition getTargetState (currentState : MagicMoverState) (act : string)
    : option MagicMoverState :=
  to <$> List.find (fun t => bool_decide (from t = currentState)
                             && bool_decide (action t = act)) TRANSITIONS.

End MagicMoverStateMachine.

(** ** Mongoose: schema validation and [save]

    These follow the library's documented behaviour for the options the
    schemas use ([required], [min], [trim], [default], [versionKey]). *)

Definition setMovers (movers : gmap string IMagicMover) (db : DB) : DB :=
  {| MagicMoverModel := movers;
     MagicItemModel := MagicItemModel db;
     ActivityLogModel := ActivityLogModel db |}.

Definition setItems (its : gmap string IMagicItem) (db : DB) : DB :=
  {| MagicMoverModel := MagicMoverModel db;
     MagicItemModel := its;
     ActivityLogModel := ActivityLogModel db |}.

Definition setLogs (logs : list IActivityLog) (db : DB) : DB :=
  {| MagicMoverModel := MagicMoverModel db;
     MagicItemModel := MagicItemModel db;
     ActivityLogModel := logs |}.

(** The paths of a mover document that fail their validator: the three
    numeric paths have [min: 0]. *)
Definition MagicMoverSchema_validate (doc : IMagicMover) : list string :=
  (if Qle_bool 0 (weightLimit doc) then [] else ["weightLimit"])
  ++ (if Qle_bool 0 (currentWeight doc) then [] else ["currentWeight"])
  ++ (if Qle_bool 0 (completedMissions doc) then [] else ["completedMissions"]).

(** [name] is [required] (for a string: present and not empty), [weight]
    has [min: 0]. *)
Definition MagicItemSchema_validate (doc : IMagicItem) : list string :=
  (if bool_decide (MagicItem.name doc = "") then ["name"] else [])
  ++ (if Qle_bool 0 (MagicItem.weight doc) then [] else ["weight"]).

(** [doc.save()] on a document loaded by [findById]: validation, then one
    update addressed by [_id].  With a version key the update is also
    addressed by the version that was loaded and increments it; without
    one ([versionKey: false]) no version is stored or compared.  The
    update carries the paths the call assigned; no call changes any other
    path, so writing the whole document is the same. *)
Definition Document_save (opts : SchemaOptions) (_id : string) (doc : IMagicMover)
    : Promise IMagicMover :=
  match MagicMoverSchema_validate doc with
  | [] =>
      perform (fun db =>
        match MagicMoverModel db !! _id with
        | None => (inl MongooseDocumentNotFoundError, db)
        | Some stored =>
            if versionKey opts then
              if bool_decide (__v stored = __v doc) then
                let doc' := {| name := name doc; weightLimit := weightLimit doc;
                               currentWeight := currentWeight doc; state := state doc;
                               items := items doc;
                               completedMissions := completedMissions doc;
                               __v := S <$> __v doc |} in
                (inr doc', setMovers (<[_id := doc']> (MagicMoverModel db)) db)
              else (inl MongooseVersionError, db)
            else (inr doc, setMovers (<[_id := doc]> (MagicMoverModel db)) db)
        end)
  | paths => reject (MongooseValidationError paths)
  end.

(** [Model.findByIdAndUpdate(id, update, { new: true })] without
    [runValidators]: one atomic update of the stored document, which is
    returned as updated, or [null] when there is none. *)
Definition Model_findByIdAndUpdate (_id : string) (update : IMagicMover -> IMagicMover)
    : Promise (option IMagicMover) :=
  Await (fun db =>
           match MagicMoverModel db !! _id with
           | None => (None, db)
           | Some stored =>
               (Some (update stored),
                setMovers (<[_id := update stored]> (MagicMoverModel db)) db)
           end)
        resolve.

(** ** dtos *)

Module CreateMagicItemDto.
Record t : Type := { name : string; weight : Q }.

(** class-validator: [@IsNotEmpty()] on [name], [@IsPositive()] on
    [weight]; the failed constraints. *)
Definition validate (dto : t) : list string :=
  (if bool_decide (name dto = "") then ["name should not be empty"] else [])
  ++ (if Qle_bool (weight dto) 0 then ["weight must be a positive number"] else []).
End CreateMagicItemDto.

Module CreateMagicMoverDto.
Record t : Type := {
  name : option string;
  weightLimit : Q;
  currentWeight : option Q;
  state : option MagicMoverState;
  items : option (list string);
  completedMissions : option Q;
}.

Definition validate (dto : t) : list string :=
  (if bool_decide (name dto = Some "") then ["name should not be empty"] else [])
  ++ (if Qle_bool (weightLimit dto) 0
      then ["weightLimit must be a positive number"] else [])
  ++ (match currentWeight dto with
      | Some w => if Qle_bool 0 w then [] else ["currentWeight must not be less than 0"]
      | None => []
      end)
  ++ (match completedMissions dto with
      | Some c => if Qle_bool 0 c then [] else ["completedMissions must not be less than 0"]
      | None => []
      end).
End CreateMagicMoverDto.

(** [validationMiddleware(type)]: the request goes on only when no
    constraint failed. *)
Definition validationMiddleware {A} (errors : list string) (next : Promise A) : Promise A :=
  if (0 <? length errors)%nat then reject (ValidationFailed errors) else next.

(** ** database/repositories/MagicItem.repository.ts *)

Module MagicItemRepository.

(** [new MagicItemModel(data).save()]; [_id] is the identifier generated
    for the new document. *)
Definition create (_id : string) (data : CreateMagicItemDto.t)
    : Promise (string * IMagicItem) :=
  let magicItem := {| MagicItem.name := trim (CreateMagicItemDto.name data);
                      MagicItem.weight := CreateMagicItemDto.weight data |} in
  match MagicItemSchema_validate magicItem with
  | [] =>
      perform (fun db =>
        match MagicItemModel db !! _id with
        | Some _ => (inl MongoDuplicateKey, db)
        | None => (inr (_id, magicItem),
                   setItems (<[_id := magicItem]> (MagicItemModel db)) db)
        end)
  | paths => reject (MongooseValidationError paths)
  end.

(** [MagicItemModel.find({ _id: { $in: ids } })] *)
Definition findByIds (ids : list string) : Promise (list (string * IMagicItem)) :=
  query (fun db =>
    map_to_list (filter (fun kv : string * IMagicItem => kv.1 ∈ ids)
                        (MagicItemModel db))).

Definition findById (id : string) : Promise (option IMagicItem) :=
  query (fun db => MagicItemModel db !! id).

End MagicItemRepository.

(** ** Array helpers *)

(** [[...new Set(xs)]]: the distinct elements in order of first occurrence. *)
Definition unique (xs : list string) : list string :=
  foldl (fun seen x => if bool_decide (x ∈ seen) then seen else seen ++ [x]) [] xs.

(** [Array.prototype.sort] with a comparator is stable; [before a b] says
    that the comparator does not put [b] in front of [a]
    ([compare(a, b) <= 0]). *)
Fixpoint sortInsert {A} (before : A -> A -> bool) (a : A) (sorted : list A) : list A :=
  match sorted with
  | [] => [a]
  | b :: rest => if before a b then a :: b :: rest
                 else b :: sortInsert before a rest
  end.

Definition sort {A} (before : A -> A -> bool) (xs : list A) : list A :=
  foldr (sortInsert before) [] xs.

(** [Promise.all(xs.map(async x => ..))] and [for (const x of xs) { ..
    await f(x) .. }], collecting the results.  Both uses below only read,
    so the order in which the reads are served makes no difference. *)
Fixpoint forEach {A B} (f : A -> Promise B) (xs : list A) : Promise (list B) :=
  match xs with
  | [] => resolve []
  | x :: xs' =>
      await y <- f x;
      await ys <- forEach f xs';
      resolve (y :: ys)
  end.

(** ** database/repositories/ActivityLog.repository.ts *)

Module ActivityLogRepository.

(** [new ActivityLogModel({..}).save()]; [now] is the time stamp that
    Mongoose gives the new entry.  The schema only requires [moverId] and
    [activityType], which every caller provides. *)
Definition create (now : Z) (moverId : string) (activityType : ActivityType.t)
    (details : ActivityDetails) : Promise IActivityLog :=
  let activityLog := {| moverId := moverId; activityType := activityType;
                        details := details; createdAt := now |} in
  perform (fun db =>
    (inr activityLog, setLogs (ActivityLogModel db ++ [activityLog]) db)).

(** [ActivityLogModel.find({ moverId }).sort({ createdAt: -1 })].  The
    order among entries with the same time stamp is the database's; the
    model keeps them in insertion order. *)
Definition findByMoverId (mid : string) : Promise (list IActivityLog) :=
  query (fun db =>
    sort (fun a b : IActivityLog => (createdAt b <=? createdAt a)%Z)
         (List.filter (fun log => bool_decide (moverId log = mid))
                      (ActivityLogModel db))).

Definition findByActivityType (type : ActivityType.t) : Promise (list IActivityLog) :=
  query (fun db =>
    sort (fun a b : IActivityLog => (createdAt b <=? createdAt a)%Z)
         (List.filter (fun log => bool_decide (activityType log = type))
                      (ActivityLogModel db))).

Record Stats : Set := {
  totalActivities : nat;
  loadingCount : nat;
  missionStartedCount : nat;
  missionEndedCount : nat;
}.

Definition getStatsByMoverId (mid : string) : Promise Stats :=
  await logs <- findByMoverId mid;
  resolve
    {| totalActivities := length logs;
       loadingCount :=
         length (List.filter
                   (fun log => bool_decide (activityType log = ActivityType.LOADING)) logs);
       missionStartedCount :=
         length (List.filter
                   (fun log => bool_decide (activityType log = ActivityType.MISSION_STARTED))
                   logs);
       missionEndedCount :=
         length (List.filter
                   (fun log => bool_decide (activityType log = ActivityType.MISSION_ENDED))
                   logs) |}.

(** [ActivityLogModel.deleteMany({ moverId })]; [result.deletedCount || 0] *)
Definition deleteByMoverId (mid : string) : Promise nat :=
  Await (fun db =>
           (length (List.filter (fun log => bool_decide (moverId log = mid))
                                (ActivityLogModel db)),
            setLogs (List.filter (fun log => negb (bool_decide (moverId log = mid)))
                                 (ActivityLogModel db)) db))
        resolve.

End ActivityLogRepository.

(** ** database/repositories/MagicMover.repository.ts *)

Module MagicMoverRepository.

(** [new MagicMoverModel(data).save()]: defaults and the [trim] setter
    are applied, the document is validated and inserted. *)
Definition create (_id : string) (data : CreateMagicMoverDto.t)
    : Promise IMagicMover :=
  let magicMover :=
    {| name := trim <$> CreateMagicMoverDto.name data;
       weightLimit := CreateMagicMoverDto.weightLimit data;
       currentWeight := default 0%Q (CreateMagicMoverDto.currentWeight data);
       state := default RESTING (CreateMagicMoverDto.state data);
       items := default [] (CreateMagicMoverDto.items data);
       completedMissions := default 0%Q (CreateMagicMoverDto.completedMissions data);
       __v := if versionKey MagicMoverSchema_options then Some 0%nat else None |} in
  match MagicMoverSchema_validate magicMover with
  | [] =>
      perform (fun db =>
        match MagicMoverModel db !! _id with
        | Some _ => (inl MongoDuplicateKey, db)
        | None => (inr magicMover,
                   setMovers (<[_id := magicMover]> (MagicMoverModel db)) db)
        end)
  | paths => reject (MongooseValidationError paths)
  end.

Definition findById (id : string) : Promise (option IMagicMover) :=
  query (fun db => MagicMoverModel db !! id).

Definition findAll : Promise (list (string * IMagicMover)) :=
  query (fun db => map_to_list (MagicMoverModel db)).

Definition validateWeightLimit (mover : IMagicMover) (additionalWeight : Q) : bool :=
  let totalWeight := (currentWeight mover + additionalWeight)%Q in
  Qle_bool totalWeight (weightLimit mover).

(** [try { return await magicMover.save() } catch (error) { .. }], the
    same in the four mutating methods. *)
Definition saveWithOptimisticLocking (id : string) (magicMover : IMagicMover)
    : Promise (option IMagicMover) :=
  tryCatch
    (await saved <- Document_save MagicMoverSchema_options id magicMover;
     resolve (Some saved))
    (fun error =>
       match error with
       | MongooseVersionError => reject ConcurrentModification
       | _ => reject error
       end).

Definition loadItems (id : string) (itemIds : list string) (totalWeight : Q)
    : Promise (option IMagicMover) :=
  await found <- findById id;
  match found with
  | None => resolve None
  | Some magicMover =>
      (* Validate state transition *)
      let currentState := state magicMover in
      let targetState := LOADING in
      await _ <- lift (MagicMoverStateMachine.validateTransition
                         currentState targetState "load");
      (* Check for duplicate items *)
      let existingItems := items magicMover in
      let duplicates :=
        List.filter (fun itemId => bool_decide (itemId ∈ existingItems)) itemIds in
      if (0 <? length duplicates)%nat then reject (DuplicateItems duplicates)
      else
        (* Validate weight limit *)
        if negb (validateWeightLimit magicMover totalWeight)
        then reject (WeightLimitExceeded (currentWeight magicMover) totalWeight
                                         (weightLimit magicMover))
        else
          saveWithOptimisticLocking id
            {| name := name magicMover;
               weightLimit := weightLimit magicMover;
               currentWeight := (currentWeight magicMover + totalWeight)%Q;
               state := LOADING;
               items := items magicMover ++ itemIds;
               completedMissions := completedMissions magicMover;
               __v := __v magicMover |}
  end.

Definition startMission (id : string) : Promise (option IMagicMover) :=
  await found <- findById id;
  match found with
  | None => resolve None
  | Some magicMover =>
      let currentState := state magicMover in
      let targetState := ON_MISSION in
      await _ <- lift (MagicMoverStateMachine.validateTransition
                         currentState targetState "start_mission");
      saveWithOptimisticLocking id
        {| name := name magicMover;
           weightLimit := weightLimit magicMover;
           currentWeight := currentWeight magicMover;
           state := ON_MISSION;
           items := items magicMover;
           completedMissions := completedMissions magicMover;
           __v := __v magicMover |}
  end.

Definition endMission (id : string) : Promise (option IMagicMover) :=
  await found <- findById id;
  match found with
  | None => resolve None
  | Some magicMover =>
      let currentState := state magicMover in
      let targetState := RESTING in
      await _ <- lift (MagicMoverStateMachine.validateTransition
                         currentState targetState "end_mission");
      saveWithOptimisticLocking id
        {| name := name magicMover;
           weightLimit := weightLimit magicMover;
           currentWeight := 0%Q;
           state := RESTING;
           items := [];
           completedMissions := (completedMissions magicMover + 1)%Q;
           __v := __v magicMover |}
  end.

Definition unloadItems (id : string) : Promise (option IMagicMover) :=
  await found <- findById id;
  match found with
  | None => resolve None
  | Some magicMover =>
      let currentState := state magicMover in
      let targetState := RESTING in
      await _ <- lift (MagicMoverStateMachine.validateTransition
                         currentState targetState "unload");
      saveWithOptimisticLocking id
        {| name := name magicMover;
           weightLimit := weightLimit magicMover;
           currentWeight := 0%Q;
           state := RESTING;
           items := [];
           completedMissions := completedMissions magicMover;
           __v := __v magicMover |}
  end.

(** The number of [moverLoadings] that have some entry of [missionEnded]
    with a later [createdAt] (the [for] loop with [missionCount++]). *)
Definition missionCount (moverLoadings missionEnded : list IActivityLog) : nat :=
  length (List.filter
            (fun loading =>
               existsb (fun ended => (createdAt loading <? createdAt ended)%Z)
                       missionEnded)
            moverLoadings).

Definition getTopPerformers (itemId : option string)
    : Promise (list (string * IMagicMover)) :=
  match itemId with
  | None | Some "" =>
      (* [MagicMoverModel.find().sort({ completedMissions: -1 })] *)
      query (fun db =>
        sort (fun a b => Qle_bool (completedMissions b.2) (completedMissions a.2))
             (map_to_list (MagicMoverModel db)))
  | Some itemId =>
      (* all LOADING activities that include the item *)
      await loadingActivities <-
        query (fun db =>
          List.filter
            (fun log =>
               bool_decide (activityType log = ActivityType.LOADING)
               && match itemIds (details log) with
                  | Some ids => bool_decide (itemId ∈ ids)
                  | None => false
                  end)
            (ActivityLogModel db));
      let moverIds := unique (moverId <$> loadingActivities) in
      if (length moverIds =? 0)%nat then resolve []
      else
        await moverMissionCounts <-
          forEach
            (fun mid =>
               let moverLoadings :=
                 List.filter (fun log => bool_decide (moverId log = mid))
                             loadingActivities in
               await missionEnded <-
                 query (fun db =>
                   List.filter
                     (fun log =>
                        bool_decide (moverId log = mid)
                        && bool_decide (activityType log = ActivityType.MISSION_ENDED))
                     (ActivityLogModel db));
               resolve (mid, missionCount moverLoadings missionEnded))
            moverIds;
        (* Sort by mission count descending *)
        let sorted :=
          sort (fun a b : string * nat => (b.2 <=? a.2)%nat) moverMissionCounts in
        (* Fetch the mover documents in the sorted order *)
        await fetched <-
          forEach (fun entry : string * nat =>
                     await mover <- findById entry.1;
                     resolve (pair entry.1 <$> mover))
                  sorted;
        resolve (omap id fetched)
  end.

(** [MagicMoverModel.find({ state })] *)
Definition findByState (s : MagicMoverState) : Promise (list (string * IMagicMover)) :=
  query (fun db =>
    map_to_list (filter (fun kv : string * IMagicMover => state kv.2 = s)
                        (MagicMoverModel db))).

(** [findByIdAndDelete(id)]; [!!result] *)
Definition deleteById (id : string) : Promise bool :=
  Await (fun db =>
           (MagicMoverModel db !! id, setMovers (delete id (MagicMoverModel db)) db))
        (fun result => resolve (bool_decide (is_Some result))).

(** [findByIdAndUpdate(id, { state }, { new: true })] *)
Definition updateState (id : string) (s : MagicMoverState) : Promise (option IMagicMover) :=
  Model_findByIdAndUpdate id
    (fun stored =>
       {| name := name stored; weightLimit := weightLimit stored;
          currentWeight := currentWeight stored; state := s;
          items := items stored; completedMissions := completedMissions stored;
          __v := __v stored |}).



Definition findAvailable (requiredWeight : option Q)
    : Promise (list (string * IMagicMover)) :=
  await movers <- findByState RESTING;
  match requiredWeight with
  | None => resolve movers
  | Some requiredWeight =>
      resolve (List.filter
                 (fun mover : string * IMagicMover =>
                    Qle_bool requiredWeight
                             (weightLimit mover.2 - currentWeight mover.2))
                 movers)
  end.

End MagicMoverRepository.

(** ** services/magicItem.service.ts *)

Module MagicItemService.
Definition create (_id : string) (data : CreateMagicItemDto.t)
    : Promise (string * IMagicItem) :=
  MagicItemRepository.create _id data.
End MagicItemService.

(** [POST /magic-items]: [validationMiddleware(CreateMagicItemDto)], then
    the controller, which hands the body to the service. *)
Definition createItem (_id : string) (name : string) (weight : Q)
    : Promise (string * IMagicItem) :=
  let body := {| CreateMagicItemDto.name := name;
                 CreateMagicItemDto.weight := weight |} in
  validationMiddleware (CreateMagicItemDto.validate body)
                       (MagicItemService.create _id body).

(** ** services/magicMover.service.ts *)

Module MagicMoverService.

Definition verifyMoverExists (id : string) : Promise IMagicMover :=
  await mover <- MagicMoverRepository.findById id;
  match mover with
  | None => reject MoverNotFound
  | Some mover => resolve mover
  end.

Definition createActivityLog (now : Z) (moverId : string)
    (activityType : ActivityType.t) (previousState newState : string)
    (additionalDetails : ActivityDetails) : Promise unit :=
  await _ <- ActivityLogRepository.create now moverId activityType
               (spread {| previousState := Some previousState;
                          newState := Some newState;
                          itemIds := None; itemCount := None;
                          totalWeight := None; missionsCompleted := None |}
                       additionalDetails);
  resolve tt.

Definition validateItemsExist (itemIds : list string) : Promise unit :=
  await found <- MagicItemRepository.findByIds itemIds;
  if negb (length found =? length itemIds)%nat then
    let foundItemIds := found.*1 in
    let missingItemIds :=
      List.filter (fun itemId => negb (bool_decide (itemId ∈ foundItemIds))) itemIds in
    reject (ItemsNotFound missingItemIds)
  else resolve tt.

Definition calculateTotalWeight (itemIds : list string) : Promise Q :=
  await found <- MagicItemRepository.findByIds itemIds;
  resolve (foldl (fun sum item => (sum + MagicItem.weight item.2)%Q) 0%Q found).

Definition create (_id : string) (data : CreateMagicMoverDto.t) : Promise IMagicMover :=
  MagicMoverRepository.create _id data.

Definition findAll : Promise (list (string * IMagicMover)) :=
  MagicMoverRepository.findAll.

Definition loadItems (now : Z) (id : string) (itemIds : list string)
    : Promise IMagicMover :=
  (* 1. Verify the mover exists *)
  await mover <- verifyMoverExists id;
  (* 2. Verify all items exist in the database *)
  await _ <- validateItemsExist itemIds;
  (* 3. Calculate total weight of items *)
  await totalWeight <- calculateTotalWeight itemIds;
  (* 4. Store previous state for logging *)
  let previousState := state mover in
  (* 5. Load items onto the mover *)
  await updatedMover <- MagicMoverRepository.loadItems id itemIds totalWeight;
  match updatedMover with
  | None => reject (FailedTo "load items onto Magic Mover")
  | Some updatedMover =>
      (* 6. Create activity log entry *)
      await _ <- createActivityLog now id ActivityType.LOADING
                   (MagicMoverState_value previousState)
                   (MagicMoverState_value (state updatedMover))
                   {| previousState := None; newState := None;
                      itemIds := Some itemIds;
                      itemCount := Some (length itemIds);
                      totalWeight := Some totalWeight;
                      missionsCompleted := None |};
      resolve updatedMover
  end.

Definition startMission (now : Z) (id : string) : Promise IMagicMover :=
  await mover <- verifyMoverExists id;
  let previousState := state mover in
  await updatedMover <- MagicMoverRepository.startMission id;
  match updatedMover with
  | None => reject (FailedTo "start mission for Magic Mover")
  | Some updatedMover =>
      await _ <- createActivityLog now id ActivityType.MISSION_STARTED
                   (MagicMoverState_value previousState)
                   (MagicMoverState_value (state updatedMover))
                   {| previousState := None; newState := None;
                      itemIds := None;
                      itemCount := Some (length (items updatedMover));
                      totalWeight := Some (currentWeight updatedMover);
                      missionsCompleted := None |};
      resolve updatedMover
  end.

Definition endMission (now : Z) (id : string) : Promise IMagicMover :=
  await mover <- verifyMoverExists id;
  (* Validate that mover is on mission *)
  if negb (bool_decide (state mover = ON_MISSION)) then reject MustBeOnMission
  else
    let previousState := state mover in
    let itemCount := length (items mover) in
    let totalWeight := currentWeight mover in
    await updatedMover <- MagicMoverRepository.endMission id;
    match updatedMover with
    | None => reject (FailedTo "end mission for Magic Mover")
    | Some updatedMover =>
        await _ <- createActivityLog now id ActivityType.MISSION_ENDED
                     (MagicMoverState_value previousState)
                     (MagicMoverState_value (state updatedMover))
                     {| previousState := None; newState := None;
                        itemIds := None;
                        itemCount := Some itemCount;
                        totalWeight := Some totalWeight;
                        missionsCompleted := Some (completedMissions updatedMover) |};
        resolve updatedMover
    end.

Definition unloadItems (now : Z) (id : string) : Promise IMagicMover :=
  await mover <- verifyMoverExists id;
  let previousState := state mover in
  let itemCount := length (items mover) in
  let totalWeight := currentWeight mover in
  await updatedMover <- MagicMoverRepository.unloadItems id;
  match updatedMover with
  | None => reject (FailedTo "unload items from Magic Mover")
  | Some updatedMover =>
      await _ <- createActivityLog now id ActivityType.UNLOADING
                   (MagicMoverState_value previousState)
                   (MagicMoverState_value (state updatedMover))
                   {| previousState := None; newState := None;
                      itemIds := None;
                      itemCount := Some itemCount;
                      totalWeight := Some totalWeight;
                      missionsCompleted := None |};
      resolve updatedMover
  end.

Definition getTopPerformers (itemId : option string)
    : Promise (list (string * IMagicMover)) :=
  MagicMoverRepository.getTopPerformers itemId.

End MagicMoverService.

(** ** controllers/magicMover.controller.ts *)

Module MagicMoverController.

(** [POST /magic-movers/:id/load]: the controller answers 400 to an empty
    [itemIds] before it calls the service. *)
Definition load (now : Z) (id : string) (itemIds : list string) : Promise IMagicMover :=
  if (length itemIds =? 0)%nat then reject (BadRequest "itemIds must be a non-empty array")
  else MagicMoverService.loadItems now id itemIds.

End MagicMoverController.

(** ** utils/response.util.ts *)

Record ApiResponse (T : Type) : Type := {
  success : bool;
  status : nat;
  responseMessage : string;   (* [message] *)
  data : option T;
}.

Arguments success {T} _.
Arguments status {T} _.
Arguments responseMessage {T} _.
Arguments data {T} _.

Module ResponseUtil.

Definition error {T} (message : string) (status : nat) : ApiResponse T :=
  {| success := false; status := status; responseMessage := message; data := None |}.

Definition success {T} (message : string) (data : option T) (status : nat)
    : ApiResponse T :=
  {| success := true; status := status; responseMessage := message; data := data |}.

Definition created {T} (message : string) (data : option T) : ApiResponse T :=
  success message data 201.

End ResponseUtil.

(** [haystack.includes(needle)] *)
Fixpoint includes (needle haystack : string) : bool :=
  String.prefix needle haystack
  || match haystack with
     | String _ rest => includes needle rest
     | EmptyString => false
     end.

(** ** routes and controllers: what a request is answered with

    [show] is JavaScript's conversion of a number to a string and
    [libraryMessage] the text that Mongoose or MongoDB gives its own
    errors; both only enter the message of the response. *)

Definition errorMessage (show : Q -> string) (libraryMessage : Error -> string)
    (error : Error) : string :=
  default (libraryMessage error) (message show error).

(** [try { body; ResponseUtil.. } catch (error) { .. }]: a handler never
    rejects. *)
Definition handle {A T} (body : Promise A) (ok : A -> ApiResponse T)
    (failed : Error -> ApiResponse T) : Promise (ApiResponse T) :=
  tryCatch (await a <- body; resolve (ok a)) (fun error => resolve (failed error)).

Module MagicItemRoute.

(** [POST /magic-items]: [validationMiddleware(CreateMagicItemDto)], then
    [MagicItemController.create]. *)
Definition create (show : Q -> string) (libraryMessage : Error -> string)
    (_id : string) (name : string) (weight : Q)
    : Promise (ApiResponse (string * IMagicItem)) :=
  let body := {| CreateMagicItemDto.name := name;
                 CreateMagicItemDto.weight := weight |} in
  let errors := CreateMagicItemDto.validate body in
  if (0 <? length errors)%nat then
    resolve (ResponseUtil.error ("Validation failed: " ++ String.concat ", " errors)%string
                                400)
  else
    handle (MagicItemService.create _id body)
           (fun magicItem =>
              ResponseUtil.created "Magic Item created successfully" (Some magicItem))
           (fun error =>
              ResponseUtil.error (errorMessage show libraryMessage error) 500).

End MagicItemRoute.

Module MagicMoverRoute.

(** [POST /magic-movers]: [validationMiddleware(CreateMagicMoverDto)], then
    [MagicMoverController.create]. *)
Definition create (show : Q -> string) (libraryMessage : Error -> string)
    (_id : string) (body : CreateMagicMoverDto.t) : Promise (ApiResponse IMagicMover) :=
  let errors := CreateMagicMoverDto.validate body in
  if (0 <? length errors)%nat then
    resolve (ResponseUtil.error ("Validation failed: " ++ String.concat ", " errors)%string
                                400)
  else
    handle (MagicMoverService.create _id body)
           (fun magicMover =>
              ResponseUtil.created "Magic Mover created successfully" (Some magicMover))
           (fun error =>
              ResponseUtil.error (errorMessage show libraryMessage error) 500).

(** [POST /magic-movers/:id/load]: [LoadItemsDto] accepts every array of
    strings, the empty one too; then [MagicMoverController.load]. *)
Definition load (show : Q -> string) (libraryMessage : Error -> string)
    (now : Z) (id : string) (itemIds : list string) : Promise (ApiResponse IMagicMover) :=
  if (length itemIds =? 0)%nat then
    resolve (ResponseUtil.error "itemIds must be a non-empty array" 400)
  else
    handle (MagicMoverService.loadItems now id itemIds)
           (fun magicMover =>
              ResponseUtil.success "Items loaded successfully" (Some magicMover) 200)
           (fun error =>
              let text := errorMessage show libraryMessage error in
              if includes "not found" text then ResponseUtil.error text 404
              else if includes "Weight limit exceeded" text
                      || includes "Invalid state transition" text
                      || includes "Duplicate items" text
              then ResponseUtil.error text 400
              else if includes "Concurrent modification" text
              then ResponseUtil.error text 409
              else ResponseUtil.error text 500).

(** [POST /magic-movers/:id/start-mission] *)
Definition startMission (show : Q -> string) (libraryMessage : Error -> string)
    (now : Z) (id : string) : Promise (ApiResponse IMagicMover) :=
  handle (MagicMoverService.startMission now id)
         (fun magicMover =>
            ResponseUtil.success "Mission started successfully" (Some magicMover) 200)
         (fun error =>
            let text := errorMessage show libraryMessage error in
            if includes "not found" text then ResponseUtil.error text 404
            else if includes "Invalid state transition" text
            then ResponseUtil.error text 400
            else if includes "Concurrent modification" text
            then ResponseUtil.error text 409
            else ResponseUtil.error text 500).

(** [POST /magic-movers/:id/end-mission] *)
Definition endMission (show : Q -> string) (libraryMessage : Error -> string)
    (now : Z) (id : string) : Promise (ApiResponse IMagicMover) :=
  handle (MagicMoverService.endMission now id)
         (fun magicMover =>
            ResponseUtil.success "Mission ended successfully" (Some magicMover) 200)
         (fun error =>
            let text := errorMessage show libraryMessage error in
            if includes "not found" text then ResponseUtil.error text 404
            else if includes "Invalid state transition" text
            then ResponseUtil.error text 400
            else if includes "Concurrent modification" text
            then ResponseUtil.error text 409
            else ResponseUtil.error text 500).

(** [POST /magic-movers/:id/unload] *)
Definition unload (show : Q -> string) (libraryMessage : Error -> string)
    (now : Z) (id : string) : Promise (ApiResponse IMagicMover) :=
  handle (MagicMoverService.unloadItems now id)
         (fun magicMover =>
            ResponseUtil.success "Items unloaded successfully" (Some magicMover) 200)
         (fun error =>
            let text := errorMessage show libraryMessage error in
            if includes "not found" text then ResponseUtil.error text 404
            else if includes "Invalid state transition" text
            then ResponseUtil.error text 400
            else if includes "Concurrent modification" text
            then ResponseUtil.error text 409
            else ResponseUtil.error text 500).

End MagicMoverRoute.

(** * Notions used in the statements *)

(** The transition table of the design document. *)
Definition transitionTable : list (MagicMoverState * MagicMoverState * string) :=
  [ (RESTING, LOADING, "load");
    (LOADING, LOADING, "load");
    (LOADING, ON_MISSION, "start_mission");
    (LOADING, RESTING, "unload");
    (ON_MISSION, RESTING, "end_mission") ].

(** The documents that [findByIds ids] returns on [db]. *)
Definition foundItems (db : DB) (ids : list string) : list (string * IMagicItem) :=
  map_to_list (filter (fun kv : string * IMagicItem => kv.1 ∈ ids) (MagicItemModel db)).

(** The total weight that [calculateTotalWeight] computes from them. *)
Definition totalWeightOf (found : list (string * IMagicItem)) : Q :=
  foldl (fun sum item => (sum + MagicItem.weight item.2)%Q) 0%Q found.

(** The weight of the item an id refers to, and the sum of the weights of
    the items a list of ids refers to. *)
Definition weightOf (its : gmap string IMagicItem) (itemId : string) : Q :=
  from_option MagicItem.weight 0%Q (its !! itemId).

Definition sumWeights (its : gmap string IMagicItem) (ids : list string) : Q :=
  foldr (fun itemId acc => (weightOf its itemId + acc)%Q) 0%Q ids.

(** The documents that the four mutating methods hand to [save]. *)
Definition loaded (m : IMagicMover) (itemIds : list string) (totalWeight : Q) : IMagicMover :=
  {| name := name m; weightLimit := weightLimit m;
     currentWeight := (currentWeight m + totalWeight)%Q; state := LOADING;
     items := items m ++ itemIds; completedMissions := completedMissions m;
     __v := __v m |}.

Definition started (m : IMagicMover) : IMagicMover :=
  {| name := name m; weightLimit := weightLimit m;
     currentWeight := currentWeight m; state := ON_MISSION;
     items := items m; completedMissions := completedMissions m; __v := __v m |}.

Definition ended (m : IMagicMover) : IMagicMover :=
  {| name := name m; weightLimit := weightLimit m;
     currentWeight := 0%Q; state := RESTING;
     items := []; completedMissions := (completedMissions m + 1)%Q; __v := __v m |}.

Definition unloaded (m : IMagicMover) : IMagicMover :=
  {| name := name m; weightLimit := weightLimit m;
     currentWeight := 0%Q; state := RESTING;
     items := []; completedMissions := completedMissions m; __v := __v m |}.

(** Saving [doc] under [id]: the schema validators, then the write. *)
Definition commit (id : string) (doc : IMagicMover) (db : DB)
    : (Error + option IMagicMover) * DB :=
  match MagicMoverSchema_validate doc with
  | [] => (inr (Some doc), setMovers (<[id := doc]> (MagicMoverModel db)) db)
  | paths => (inl (MongooseValidationError paths), db)
  end.

(** The entry that [createActivityLog] appends. *)
Definition logged (now : Z) (id : string) (type : ActivityType.t)
    (before after : MagicMoverState) (ids : option (list string))
    (count : nat) (weight : Q) (missions : option Q) (db : DB) : DB :=
  setLogs (ActivityLogModel db ++
           [ {| moverId := id; activityType := type;
                details := {| previousState := Some (MagicMoverState_value before);
                              newState := Some (MagicMoverState_value after);
                              itemIds := ids; itemCount := Some count;
                              totalWeight := Some weight;
                              missionsCompleted := missions |};
                createdAt := now |} ]) db.

(** Committing a document and writing the log entry of the transition. *)
Definition commitAndLog (now : Z) (id : string) (type : ActivityType.t)
    (m doc : IMagicMover) (ids : option (list string)) (count : nat) (weight : Q)
    (missions : option Q) (db : DB) : (Error + IMagicMover) * DB :=
  match MagicMoverSchema_validate doc with
  | [] => (inr doc,
           logged now id type (state m) (state doc) ids count weight missions
                  (setMovers (<[id := doc]> (MagicMoverModel db)) db))
  | paths => (inl (MongooseValidationError paths), db)
  end.

(** The calls that a client makes one after the other.  A mover is created
    fresh: from a name and a weight limit only, so that the schema defaults
    make it RESTING with empty cargo. *)
Inductive Call : Type :=
  | CreateItem (_id : string) (name : string) (weight : Q)
  | CreateMover (_id : string) (name : option string) (weightLimit : Q)
  | LoadItems (now : Z) (id : string) (itemIds : list string)
  | StartMission (now : Z) (id : string)
  | EndMission (now : Z) (id : string)
  | UnloadItems (now : Z) (id : string).

Definition freshMover (name : option string) (weightLimit : Q) : CreateMagicMoverDto.t :=
  {| CreateMagicMoverDto.name := name;
     CreateMagicMoverDto.weightLimit := weightLimit;
     CreateMagicMoverDto.currentWeight := None;
     CreateMagicMoverDto.state := None;
     CreateMagicMoverDto.items := None;
     CreateMagicMoverDto.completedMissions := None |}.

(** The database after a call, whether it was committed or rejected. *)
Definition step (c : Call) (db : DB) : DB :=
  match c with
  | CreateItem _id name weight => (run (createItem _id name weight) db).2
  | CreateMover _id name weightLimit =>
      (run (MagicMoverService.create _id (freshMover name weightLimit)) db).2
  | LoadItems now id itemIds => (run (MagicMoverService.loadItems now id itemIds) db).2
  | StartMission now id => (run (MagicMoverService.startMission now id) db).2
  | EndMission now id => (run (MagicMoverService.endMission now id) db).2
  | UnloadItems now id => (run (MagicMoverService.unloadItems now id) db).2
  end.

Definition execute (calls : list Call) (db : DB) : DB :=
  foldl (fun db c => step c db) db calls.

(** The three cargo invariants of a mover document. *)
Definition cargoInvariant (db : DB) (m : IMagicMover) : Prop :=
  (currentWeight m == sumWeights (MagicItemModel db) (items m))%Q
  /\ (currentWeight m <= weightLimit m)%Q
  /\ NoDup (items m).

(** What is carried along to prove them: every id aboard refers to an item
    that exists. *)
Definition storeInvariant (db : DB) : Prop :=
  forall id m, MagicMoverModel db !! id = Some m ->
    cargoInvariant db m /\ (forall i, i ∈ items m -> is_Some (MagicItemModel db !! i)).

(** What is left of an [endMission] call once its two reads (the service's
    and the repository's) have both returned the mover document [m]. *)
Definition endMissionInFlight (now : Z) (id : string) (m : IMagicMover)
    : Promise IMagicMover :=
  await updatedMover <-
    (await _ <- lift (MagicMoverStateMachine.validateTransition
                        (state m) RESTING "end_mission");
     MagicMoverRepository.saveWithOptimisticLocking id (ended m));
  match updatedMover with
  | None => reject (FailedTo "end mission for Magic Mover")
  | Some updatedMover =>
      await _ <- MagicMoverService.createActivityLog now id ActivityType.MISSION_ENDED
                   (MagicMoverState_value (state m))
                   (MagicMoverState_value (state updatedMover))
                   {| previousState := None; newState := None;
                      itemIds := None;
                      itemCount := Some (length (items m));
                      totalWeight := Some (currentWeight m);
                      missionsCompleted := Some (completedMissions updatedMover) |};
      resolve updatedMover
  end.

(** A LOADING entry whose [details.itemIds] contains the item. *)
Definition isLoadingOf (itemId : string) (log : IActivityLog) : bool :=
  bool_decide (activityType log = ActivityType.LOADING)
  && match itemIds (details log) with
     | Some ids => bool_decide (itemId ∈ ids)
     | None => false
     end.

(** A MISSION_ENDED entry of the mover. *)
Definition isMissionEndedOf (mid : string) (log : IActivityLog) : bool :=
  bool_decide (moverId log = mid)
  && bool_decide (activityType log = ActivityType.MISSION_ENDED).

(** The count by which the code orders the movers: the LOADING entries of
    the mover with the item that are strictly followed by some
    MISSION_ENDED entry of the mover. *)
Definition loadingsFollowedByMissionEnd (db : DB) (itemId mid : string) : nat :=
  length (List.filter
            (fun loading =>
               isLoadingOf itemId loading && bool_decide (moverId loading = mid)
               && existsb (fun ended => isMissionEndedOf mid ended
                                        && (createdAt loading <? createdAt ended)%Z)
                          (ActivityLogModel db))
            (ActivityLogModel db)).

(** The count of the design document: the MISSION_ENDED entries of the
    mover that come strictly after some LOADING entry of the mover with the
    item. *)
Definition missionEndsAfterLoading (db : DB) (itemId mid : string) : nat :=
  length (List.filter
            (fun ended =>
               isMissionEndedOf mid ended
               && existsb (fun loading =>
                             isLoadingOf itemId loading
                             && bool_decide (moverId loading = mid)
                             && (createdAt loading <? createdAt ended)%Z)
                          (ActivityLogModel db))
            (ActivityLogModel db)).



(** ** Example databases, built by the calls themselves *)

(** Two items are registered, a mover is created and both items are loaded
    onto it. *)
Definition loadingCalls : list Call :=
  [ CreateItem "i1" "Phoenix Feather" (1 # 2);
    CreateItem "i2" "Dragon Scale" (5 # 2);
    CreateMover "m1" (Some "Gandalf the Grey") 100;
    LoadItems 1 "m1" ["i1"; "i2"] ].

Definition loadingDB : DB := execute loadingCalls emptyDB.

(** Then the mission is started. *)
Definition onMissionDB : DB := execute [StartMission 2 "m1"] loadingDB.

(** A mover of limit 10 and an item of weight 15. *)
Definition lowCapacityDB : DB :=
  execute [ CreateItem "heavy" "Stone Golem Fragment" 15;
            CreateMover "m2" (Some "Apprentice Wizard") 10 ] emptyDB.

(** Mover [a] loads item [x] once and ends two missions after that; mover
    [b] loads [x], unloads, loads [x] again and ends one mission. *)
Definition leaderboardDB : DB :=
  execute [ CreateItem "x" "Unicorn Horn" 1;
            CreateItem "y" "Fairy Dust" (1 # 10);
            CreateMover "a" (Some "Merlin") 150;
            CreateMover "b" (Some "Dumbledore") 200;
            LoadItems 1 "a" ["x"]; StartMission 2 "a"; EndMission 3 "a";
            LoadItems 4 "a" ["y"]; StartMission 5 "a"; EndMission 6 "a";
            LoadItems 7 "b" ["x"]; UnloadItems 8 "b";
            LoadItems 9 "b" ["x"]; StartMission 10 "b"; EndMission 11 "b" ] emptyDB.

(** Mover [c] has loaded item [x] and is still loading. *)
Definition stillLoadingDB : DB :=
  execute [ CreateItem "x" "Unicorn Horn" 1;
            CreateMover "c" (Some "Gandalf the Grey") 100;
            LoadItems 1 "c" ["x"] ] emptyDB.

(** The mover documents that these databases hold. *)
Definition gandalfLoading : IMagicMover :=
  {| name := Some "Gandalf the Grey"; weightLimit := 100; currentWeight := 12 # 4;
     state := LOADING; items := ["i1"; "i2"]; completedMissions := 0; __v := None |}.

Definition gandalfOnMission : IMagicMover := started gandalfLoading.

Definition apprentice : IMagicMover :=
  {| name := Some "Apprentice Wizard"; weightLimit := 10; currentWeight := 0;
     state := RESTING; items := []; completedMissions := 0; __v := None |}.

(** ** The effect of a committed call *)

(** One call that was not rejected changes the database in one of six
    ways: an item or a fresh mover is inserted under a new identifier, or
    one existing mover is saved loaded, started, ended or unloaded and the
    activity log gets the entry of that transition. *)
Inductive Committed (db : DB) : DB -> Prop :=
  | Committed_item _id it :
      MagicItemModel db !! _id = None ->
      MagicItem.name it <> "" -> (0 < MagicItem.weight it)%Q ->
      Committed db (setItems (<[_id := it]> (MagicItemModel db)) db)
  | Committed_mover _id doc :
      MagicMoverModel db !! _id = None ->
      state doc = RESTING -> items doc = [] -> currentWeight doc = 0%Q ->
      completedMissions doc = 0%Q -> MagicMoverSchema_validate doc = [] ->
      Committed db (setMovers (<[_id := doc]> (MagicMoverModel db)) db)
  | Committed_load now id m itemIds totalWeight :
      MagicMoverModel db !! id = Some m ->
      state m <> ON_MISSION ->
      NoDup itemIds ->
      (forall i, i ∈ itemIds -> is_Some (MagicItemModel db !! i)) ->
      (forall i, i ∈ itemIds -> i ∉ items m) ->
      (totalWeight == sumWeights (MagicItemModel db) itemIds)%Q ->
      (currentWeight m + totalWeight <= weightLimit m)%Q ->
      MagicMoverSchema_validate (loaded m itemIds totalWeight) = [] ->
      Committed db
        (logged now id ActivityType.LOADING (state m) LOADING (Some itemIds)
                (length itemIds) totalWeight None
                (setMovers (<[id := loaded m itemIds totalWeight]> (MagicMoverModel db)) db))
  | Committed_start now id m :
      MagicMoverModel db !! id = Some m ->
      state m = LOADING ->
      MagicMoverSchema_validate (started m) = [] ->
      Committed db
        (logged now id ActivityType.MISSION_STARTED LOADING ON_MISSION None
                (length (items m)) (currentWeight m) None
                (setMovers (<[id := started m]> (MagicMoverModel db)) db))
  | Committed_end now id m :
      MagicMoverModel db !! id = Some m ->
      state m = ON_MISSION ->
      MagicMoverSchema_validate (ended m) = [] ->
      Committed db
        (logged now id ActivityType.MISSION_ENDED ON_MISSION RESTING None
                (length (items m)) (currentWeight m)
                (Some (completedMissions m + 1)%Q)
                (setMovers (<[id := ended m]> (MagicMoverModel db)) db))
  | Committed_unload now id m :
      MagicMoverModel db !! id = Some m ->
      state m = LOADING ->
      MagicMoverSchema_validate (unloaded m) = [] ->
      Committed db
        (logged now id ActivityType.UNLOADING LOADING RESTING None
                (length (items m)) (currentWeight m) None
                (setMovers (<[id := unloaded m]> (MagicMoverModel db)) db)).

(** The number of MISSION_ENDED entries that the log holds for a mover. *)
Definition missionsLogged (db : DB) (mid : string) : nat :=
  length (List.filter (isMissionEndedOf mid) (ActivityLogModel db)).

(** What every mover document of a database reached by the calls
    satisfies beside the cargo invariants. *)
Definition moverWellFormed (m : IMagicMover) : Prop :=
  MagicMoverSchema_validate m = []
  /\ (state m = RESTING -> items m = [] /\ currentWeight m = 0%Q).

(** The log and the movers agree: every entry belongs to a mover that
    exists, and a mover has completed as many missions as the log has
    MISSION_ENDED entries for it. *)
Definition historyInvariant (db : DB) : Prop :=
  (forall log, log ∈ ActivityLogModel db -> is_Some (MagicMoverModel db !! moverId log))
  /\ (forall id m, MagicMoverModel db !! id = Some m ->
        (completedMissions m == inject_Z (Z.of_nat (missionsLogged db id)))%Q).

(** What a committed transition of mover [id] leaves behind: the mover
    document [m'] saved under [id], the items untouched, and one more log
    entry, of the given type, for that mover, stamped [now], recording the
    state before and the state after. *)
Definition transitionLogged (type : ActivityType.t) (now : Z) (id : string)
    (db db' : DB) (m' : IMagicMover) : Prop :=
  MagicMoverModel db' = <[id := m']> (MagicMoverModel db)
  /\ MagicItemModel db' = MagicItemModel db
  /\ exists entry,
       ActivityLogModel db' = ActivityLogModel db ++ [entry]
       /\ moverId entry = id /\ activityType entry = type /\ createdAt entry = now
       /\ previousState (details entry)
          = (fun m => MagicMoverState_value (state m)) <$> MagicMoverModel db !! id
       /\ newState (details entry) = Some (MagicMoverState_value (state m')).



(** The number of entries of a type that the log holds for a mover. *)
Definition entriesOf (db : DB) (mid : string) (type : ActivityType.t) : nat :=
  length (List.filter (fun log => bool_decide (moverId log = mid)
                                  && bool_decide (activityType log = type))
                      (ActivityLogModel db)).

(** The log of a mover and its state agree: a mission was started once more
    than ended exactly while the mover is ON_MISSION, and every load that
    was unloaded or flown, and the one under way, has at least one LOADING
    entry. *)
Definition logMatchesState (db : DB) (id : string) (m : IMagicMover) : Prop :=
  entriesOf db id ActivityType.MISSION_STARTED
  = (entriesOf db id ActivityType.MISSION_ENDED
     + if bool_decide (state m = ON_MISSION) then 1 else 0)%nat
  /\ (entriesOf db id ActivityType.MISSION_ENDED + entriesOf db id ActivityType.UNLOADING
      + (if bool_decide (state m = RESTING) then 0 else 1)
      <= entriesOf db id ActivityType.LOADING)%nat.

Definition logInvariant (db : DB) : Prop :=
  (forall log, log ∈ ActivityLogModel db -> is_Some (MagicMoverModel db !! moverId log))
  /\ (forall id m, MagicMoverModel db !! id = Some m -> logMatchesState db id m).



(** Descending order of [completedMissions]. *)
Definition missionsDescending (a b : string * IMagicMover) : Prop :=
  (completedMissions b.2 <= completedMissions a.2)%Q.

(** A mover request is answered as the service call went: the database is
    left as the service call leaves it; a call that succeeded is answered
    200 with the mover it returned, a call that failed with a failure that
    carries no data and one of the four error statuses. *)
Definition answered (db : DB) (route : Promise (ApiResponse IMagicMover))
    (service : Promise IMagicMover) (text : string) : Prop :=
  exists response,
    run route db = (inr response, (run service db).2)
    /\ match (run service db).1 with
       | inr magicMover =>
           response = {| success := true; status := 200; responseMessage := text;
                         data := Some magicMover |}
       | inl _ =>
           success response = false /\ data response = None
           /\ status response ∈ [404; 400; 409; 500]%nat
       end.


(** The texts of the errors in the examples: numbers are not shown and the
    libraries' errors have no text. *)
Definition showNothing (x : Q) : string := "".
Definition noLibraryMessage (e : Error) : string := "".

(** * Properties *)

(** ** Running a call *)

Lemma run_bind {A B} (c : Promise A) (k : A -> Promise B) db :
  run (bind c k) db =
  match run c db with
  | (inl e, db') => (inl e, db')
  | (inr a, db') => run (k a) db'
  end.
Proof.
  revert db. induction c as [[e|a]|X io k' IH]; intros db; simpl; try done.
  destruct (io db) as [x db']. apply IH.
Qed.

Lemma run_tryCatch {A} (c : Promise A) (h : Error -> Promise A) db :
  run (tryCatch c h) db =
  match run c db with
  | (inl e, db') => run (h e) db'
  | (inr a, db') => (inr a, db')
  end.
Proof.
  revert db. induction c as [[e|a]|X io k' IH]; intros db; simpl; try done.
  destruct (io db) as [x db']. apply IH.
Qed.

(** ** The state machine *)

Lemma canTransition_table currentState targetState act :
  MagicMoverStateMachine.canTransition currentState targetState act = true
  <-> (currentState, targetState, act) ∈ transitionTable.
Proof.
  unfold MagicMoverStateMachine.canTransition, MagicMoverStateMachine.TRANSITIONS,
    transitionTable.
  cbn [existsb MagicMoverStateMachine.from MagicMoverStateMachine.to
       MagicMoverStateMachine.action].
  rewrite !orb_true_iff, !andb_true_iff, !bool_decide_eq_true.
  rewrite !elem_of_cons, elem_of_nil.
  split; intros H.
  - repeat destruct H as [H|H]; try done; destruct H as [[<- <-] <-]; eauto 10.
  - repeat destruct H as [H|H]; try done; simplify_eq; eauto 10.
Qed.

(** C2. [canTransition] is true exactly on the five entries of the
    transition table; [validateTransition] accepts exactly those and fails
    on every other triple with the invalid-transition error that carries
    the action, the from-state and the to-state; in particular RESTING to
    ON_MISSION by start_mission is rejected. *)
Theorem canTransition_exactly_the_table currentState targetState act :
  (MagicMoverStateMachine.canTransition currentState targetState act = true
   <-> (currentState, targetState, act) ∈ transitionTable)
  /\ (MagicMoverStateMachine.validateTransition currentState targetState act
      = inl (InvalidStateTransition act currentState targetState)
      <-> (currentState, targetState, act) ∉ transitionTable)
  /\ (MagicMoverStateMachine.validateTransition currentState targetState act = inr tt
      <-> (currentState, targetState, act) ∈ transitionTable)
  /\ MagicMoverStateMachine.validateTransition RESTING ON_MISSION "start_mission"
     = inl (InvalidStateTransition "start_mission" RESTING ON_MISSION)
  /\ (forall show,
        message show (InvalidStateTransition act currentState targetState)
        = Some ("Invalid state transition: Cannot " ++ act ++ " from "
                ++ MagicMoverState_value currentState ++ " to "
                ++ MagicMoverState_value targetState)%string).
Proof.
  pose proof (canTransition_table currentState targetState act) as Htable.
  unfold MagicMoverStateMachine.validateTransition.
  destruct (MagicMoverStateMachine.canTransition currentState targetState act);
    cbn [negb]; unfold not; intuition (try discriminate; auto).
Qed.

(** ** Looking items up *)

Lemma elem_of_List_filter {A} (f : A -> bool) (l : list A) (x : A) :
  x ∈ List.filter f l <-> x ∈ l /\ f x = true.
Proof. rewrite !list_elem_of_In. apply filter_In. Qed.

Lemma elem_of_foundItems db ids k it :
  (k, it) ∈ foundItems db ids <-> MagicItemModel db !! k = Some it /\ k ∈ ids.
Proof.
  unfold foundItems. rewrite elem_of_map_to_list, map_lookup_filter_Some. done.
Qed.

Lemma NoDup_foundItems db ids : NoDup (foundItems db ids).*1.
Proof. apply NoDup_fst_map_to_list. Qed.

Lemma foundItems_subseteq db ids k : k ∈ (foundItems db ids).*1 -> k ∈ ids.
Proof.
  intros [[k' it] [-> Hin]]%list_elem_of_fmap.
  apply elem_of_foundItems in Hin. tauto.
Qed.

(** As many documents as ids: the ids are distinct and all exist. *)
Lemma foundItems_length_Permutation db ids :
  length (foundItems db ids) = length ids -> (foundItems db ids).*1 ≡ₚ ids.
Proof.
  intros Hlen. apply submseteq_length_Permutation.
  - apply NoDup_submseteq; [apply NoDup_foundItems | apply foundItems_subseteq].
  - rewrite length_fmap. lia.
Qed.

Lemma foundItems_all db ids :
  NoDup ids -> (forall k, k ∈ ids -> is_Some (MagicItemModel db !! k)) ->
  (foundItems db ids).*1 ≡ₚ ids.
Proof.
  intros Hnd Hall. apply NoDup_Permutation; [apply NoDup_foundItems | done |].
  intros k; split; [apply foundItems_subseteq |].
  intros Hk. destruct (Hall k Hk) as [it Hit].
  apply list_elem_of_fmap. exists (k, it). split; [done |].
  apply elem_of_foundItems. done.
Qed.

Lemma foundItems_nil db : foundItems db [] = [].
Proof.
  destruct (foundItems db []) as [|[k it] l] eqn:Hfound; [done |].
  assert (Hin : (k, it) ∈ foundItems db []) by (rewrite Hfound; left).
  apply elem_of_foundItems in Hin as [_ Hin]. by apply elem_of_nil in Hin.
Qed.

Lemma sumWeights_cons its x l :
  sumWeights its (x :: l) = (weightOf its x + sumWeights its l)%Q.
Proof. reflexivity. Qed.

Lemma sumWeights_app its l1 l2 :
  (sumWeights its (l1 ++ l2) == sumWeights its l1 + sumWeights its l2)%Q.
Proof.
  induction l1 as [|x l1 IH].
  { rewrite app_nil_l. change (sumWeights its []) with 0%Q. lra. }
  rewrite <- app_comm_cons, !sumWeights_cons, IH. lra.
Qed.

Lemma sumWeights_Permutation its l1 l2 :
  l1 ≡ₚ l2 -> (sumWeights its l1 == sumWeights its l2)%Q.
Proof.
  induction 1 as [|x l1 l2 _ IH|x y l|l1 l2 l3 _ IH1 _ IH2];
    rewrite ?sumWeights_cons; lra.
Qed.

Lemma foldl_weights its (found : list (string * IMagicItem)) (a : Q) :
  (forall k it, (k, it) ∈ found -> its !! k = Some it) ->
  (foldl (fun sum item => sum + MagicItem.weight item.2) a found
   == a + sumWeights its found.*1)%Q.
Proof.
  revert a. induction found as [|[k it] found IH]; intros a Hfound.
  - change (sumWeights its _) with 0%Q. cbn [foldl]. lra.
  - cbn [foldl]. rewrite IH by (intros; apply Hfound; by right).
    rewrite fmap_cons, sumWeights_cons. unfold weightOf. cbn [fst snd].
    rewrite (Hfound k it) by left. cbn [from_option]. lra.
Qed.

(** When the existence check passes, the total weight is the sum of the
    weights of the requested items. *)
Lemma totalWeightOf_found db ids :
  (foundItems db ids).*1 ≡ₚ ids ->
  (totalWeightOf (foundItems db ids) == sumWeights (MagicItemModel db) ids)%Q.
Proof.
  intros Hperm. unfold totalWeightOf.
  rewrite (foldl_weights (MagicItemModel db)).
  - rewrite (sumWeights_Permutation _ _ _ Hperm). lra.
  - intros k it Hin. apply elem_of_foundItems in Hin. tauto.
Qed.

(** ** What one call does when nothing runs in between *)

Lemma run_saveWithOptimisticLocking id doc stored db :
  MagicMoverModel db !! id = Some stored ->
  run (MagicMoverRepository.saveWithOptimisticLocking id doc) db = commit id doc db.
Proof.
  intros Hstored.
  unfold MagicMoverRepository.saveWithOptimisticLocking, Document_save, commit.
  rewrite run_tryCatch, run_bind.
  destruct (MagicMoverSchema_validate doc) as [|path paths]; cbn.
  - rewrite Hstored. reflexivity.
  - reflexivity.
Qed.

Lemma run_repository_loadItems id itemIds totalWeight db :
  run (MagicMoverRepository.loadItems id itemIds totalWeight) db =
  match MagicMoverModel db !! id with
  | None => (inr None, db)
  | Some m =>
      match MagicMoverStateMachine.validateTransition (state m) LOADING "load" with
      | inl e => (inl e, db)
      | inr _ =>
          let duplicates :=
            List.filter (fun itemId => bool_decide (itemId ∈ items m)) itemIds in
          if (0 <? length duplicates)%nat then (inl (DuplicateItems duplicates), db)
          else if negb (MagicMoverRepository.validateWeightLimit m totalWeight)
          then (inl (WeightLimitExceeded (currentWeight m) totalWeight (weightLimit m)), db)
          else commit id (loaded m itemIds totalWeight) db
      end
  end.
Proof.
  unfold MagicMoverRepository.loadItems. rewrite run_bind. cbn [run MagicMoverRepository.findById query resolve].
  destruct (MagicMoverModel db !! id) as [m|] eqn:Hm; [| reflexivity].
  rewrite run_bind. unfold lift. cbn [run].
  destruct (MagicMoverStateMachine.validateTransition _ _ _) as [e|[]]; [reflexivity |].
  cbn zeta.
  destruct (0 <? _)%nat; [reflexivity |].
  destruct (negb _); [reflexivity |].
  by apply run_saveWithOptimisticLocking with m.
Qed.

Lemma run_repository_transition (method : string -> Promise (option IMagicMover))
    (target : MagicMoverState) (act : string) (next : IMagicMover -> IMagicMover) :
  (forall id,
     method id =
     (await found <- MagicMoverRepository.findById id;
      match found with
      | None => resolve None
      | Some magicMover =>
          await _ <- lift (MagicMoverStateMachine.validateTransition
                             (state magicMover) target act);
          MagicMoverRepository.saveWithOptimisticLocking id (next magicMover)
      end)) ->
  forall id db,
  run (method id) db =
  match MagicMoverModel db !! id with
  | None => (inr None, db)
  | Some m =>
      match MagicMoverStateMachine.validateTransition (state m) target act with
      | inl e => (inl e, db)
      | inr _ => commit id (next m) db
      end
  end.
Proof.
  intros Hmethod id db. rewrite Hmethod, run_bind.
  cbn [run MagicMoverRepository.findById query resolve].
  destruct (MagicMoverModel db !! id) as [m|] eqn:Hm; [| reflexivity].
  rewrite run_bind. unfold lift. cbn [run].
  destruct (MagicMoverStateMachine.validateTransition _ _ _) as [e|[]]; [reflexivity |].
  by apply run_saveWithOptimisticLocking with m.
Qed.

Lemma run_repository_startMission id db :
  run (MagicMoverRepository.startMission id) db =
  match MagicMoverModel db !! id with
  | None => (inr None, db)
  | Some m =>
      match MagicMoverStateMachine.validateTransition (state m) ON_MISSION "start_mission" with
      | inl e => (inl e, db)
      | inr _ => commit id (started m) db
      end
  end.
Proof. by apply (run_repository_transition _ ON_MISSION "start_mission" started). Qed.

Lemma run_repository_endMission id db :
  run (MagicMoverRepository.endMission id) db =
  match MagicMoverModel db !! id with
  | None => (inr None, db)
  | Some m =>
      match MagicMoverStateMachine.validateTransition (state m) RESTING "end_mission" with
      | inl e => (inl e, db)
      | inr _ => commit id (ended m) db
      end
  end.
Proof. by apply (run_repository_transition _ RESTING "end_mission" ended). Qed.

Lemma run_repository_unloadItems id db :
  run (MagicMoverRepository.unloadItems id) db =
  match MagicMoverModel db !! id with
  | None => (inr None, db)
  | Some m =>
      match MagicMoverStateMachine.validateTransition (state m) RESTING "unload" with
      | inl e => (inl e, db)
      | inr _ => commit id (unloaded m) db
      end
  end.
Proof. by apply (run_repository_transition _ RESTING "unload" unloaded). Qed.

(** The repository's [commit] and the service's [commitAndLog] agree,
    whether the validators accept the document or not. *)
Ltac commit_cases :=
  unfold commit, commitAndLog;
  destruct (MagicMoverSchema_validate _); reflexivity.

Lemma run_verifyMoverExists id db :
  run (MagicMoverService.verifyMoverExists id) db =
  match MagicMoverModel db !! id with
  | None => (inl MoverNotFound, db)
  | Some m => (inr m, db)
  end.
Proof.
  unfold MagicMoverService.verifyMoverExists. rewrite run_bind.
  cbn [run MagicMoverRepository.findById query resolve].
  by destruct (MagicMoverModel db !! id).
Qed.

Lemma run_loadItems now id itemIds db :
  run (MagicMoverService.loadItems now id itemIds) db =
  match MagicMoverModel db !! id with
  | None => (inl MoverNotFound, db)
  | Some m =>
      let found := foundItems db itemIds in
      if negb (length found =? length itemIds)%nat then
        (inl (ItemsNotFound
                (List.filter (fun itemId => negb (bool_decide (itemId ∈ found.*1)))
                             itemIds)), db)
      else
        let totalWeight := totalWeightOf found in
        match MagicMoverStateMachine.validateTransition (state m) LOADING "load" with
        | inl e => (inl e, db)
        | inr _ =>
            let duplicates :=
              List.filter (fun itemId => bool_decide (itemId ∈ items m)) itemIds in
            if (0 <? length duplicates)%nat then (inl (DuplicateItems duplicates), db)
            else if negb (MagicMoverRepository.validateWeightLimit m totalWeight)
            then (inl (WeightLimitExceeded (currentWeight m) totalWeight (weightLimit m)), db)
            else commitAndLog now id ActivityType.LOADING m (loaded m itemIds totalWeight)
                              (Some itemIds) (length itemIds) totalWeight None db
        end
  end.
Proof.
  unfold MagicMoverService.loadItems.
  rewrite run_bind, run_verifyMoverExists.
  destruct (MagicMoverModel db !! id) as [m|] eqn:Hm; [| reflexivity].
  rewrite run_bind.
  unfold MagicMoverService.validateItemsExist. rewrite run_bind.
  cbn [run MagicItemRepository.findByIds query resolve]. fold (foundItems db itemIds).
  cbn zeta. destruct (negb _); [reflexivity |].
  cbn [run resolve].
  rewrite run_bind.
  unfold MagicMoverService.calculateTotalWeight. rewrite run_bind.
  cbn [run MagicItemRepository.findByIds query resolve]. fold (foundItems db itemIds).
  fold (totalWeightOf (foundItems db itemIds)).
  rewrite run_bind, run_repository_loadItems, Hm.
  destruct (MagicMoverStateMachine.validateTransition _ _ _) as [e|[]]; [reflexivity |].
  cbn zeta.
  destruct (0 <? _)%nat; [reflexivity |].
  destruct (negb _); [reflexivity |].
  commit_cases.
Qed.

Lemma run_startMission now id db :
  run (MagicMoverService.startMission now id) db =
  match MagicMoverModel db !! id with
  | None => (inl MoverNotFound, db)
  | Some m =>
      match MagicMoverStateMachine.validateTransition (state m) ON_MISSION "start_mission" with
      | inl e => (inl e, db)
      | inr _ => commitAndLog now id ActivityType.MISSION_STARTED m (started m)
                              None (length (items m)) (currentWeight m) None db
      end
  end.
Proof.
  unfold MagicMoverService.startMission.
  rewrite run_bind, run_verifyMoverExists.
  destruct (MagicMoverModel db !! id) as [m|] eqn:Hm; [| reflexivity].
  rewrite run_bind, run_repository_startMission, Hm.
  destruct (MagicMoverStateMachine.validateTransition _ _ _) as [e|[]]; [reflexivity |].
  commit_cases.
Qed.

Lemma run_endMission now id db :
  run (MagicMoverService.endMission now id) db =
  match MagicMoverModel db !! id with
  | None => (inl MoverNotFound, db)
  | Some m =>
      if negb (bool_decide (state m = ON_MISSION)) then (inl MustBeOnMission, db)
      else
        match MagicMoverStateMachine.validateTransition (state m) RESTING "end_mission" with
        | inl e => (inl e, db)
        | inr _ => commitAndLog now id ActivityType.MISSION_ENDED m (ended m)
                                None (length (items m)) (currentWeight m)
                                (Some (completedMissions (ended m))) db
        end
  end.
Proof.
  unfold MagicMoverService.endMission.
  rewrite run_bind, run_verifyMoverExists.
  destruct (MagicMoverModel db !! id) as [m|] eqn:Hm; [| reflexivity].
  destruct (negb _); [reflexivity |].
  rewrite run_bind, run_repository_endMission, Hm.
  destruct (MagicMoverStateMachine.validateTransition _ _ _) as [e|[]]; [reflexivity |].
  commit_cases.
Qed.

Lemma run_unloadItems now id db :
  run (MagicMoverService.unloadItems now id) db =
  match MagicMoverModel db !! id with
  | None => (inl MoverNotFound, db)
  | Some m =>
      match MagicMoverStateMachine.validateTransition (state m) RESTING "unload" with
      | inl e => (inl e, db)
      | inr _ => commitAndLog now id ActivityType.UNLOADING m (unloaded m)
                              None (length (items m)) (currentWeight m) None db
      end
  end.
Proof.
  unfold MagicMoverService.unloadItems.
  rewrite run_bind, run_verifyMoverExists.
  destruct (MagicMoverModel db !! id) as [m|] eqn:Hm; [| reflexivity].
  rewrite run_bind, run_repository_unloadItems, Hm.
  destruct (MagicMoverStateMachine.validateTransition _ _ _) as [e|[]]; [reflexivity |].
  commit_cases.
Qed.

(** ** The schema validators *)

Lemma MagicMoverSchema_validate_nil doc :
  MagicMoverSchema_validate doc = []
  <-> (0 <= weightLimit doc /\ 0 <= currentWeight doc /\ 0 <= completedMissions doc)%Q.
Proof.
  unfold MagicMoverSchema_validate. rewrite <- !Qle_bool_iff.
  destruct (Qle_bool 0 (weightLimit doc)), (Qle_bool 0 (currentWeight doc)),
    (Qle_bool 0 (completedMissions doc)); cbn; intuition congruence.
Qed.

Lemma foundItems_length db ids :
  NoDup ids -> (forall k, k ∈ ids -> is_Some (MagicItemModel db !! k)) ->
  length (foundItems db ids) = length ids.
Proof.
  intros Hnd Hall. rewrite <- (length_fmap fst).
  apply Permutation_length, foundItems_all; done.
Qed.


Lemma some_duplicates (existing ids : list string) i :
  i ∈ ids -> i ∈ existing ->
  (0 <? length (List.filter (fun itemId => bool_decide (itemId ∈ existing)) ids))%nat = true.
Proof.
  intros Hi Hex.
  assert (Hin : i ∈ List.filter (fun itemId => bool_decide (itemId ∈ existing)) ids).
  { apply elem_of_List_filter. split; [done |]. by apply bool_decide_eq_true. }
  destruct (List.filter _ ids); [by apply elem_of_nil in Hin | done].
Qed.

Ltac state_machine_accepts :=
  match goal with
  | |- context [MagicMoverStateMachine.validateTransition ?s ?t ?a] =>
      change (MagicMoverStateMachine.validateTransition s t a) with (@inr Error unit tt);
      cbn iota
  end.

Ltac still_valid Hvalid :=
  apply MagicMoverSchema_validate_nil in Hvalid as (? & ? & ?);
  apply MagicMoverSchema_validate_nil; cbn; split_and!; lra.

(** ** The calls on an existing mover *)

Section ExistingMover.

Context (now : Z) (id : string) (db : DB) (m : IMagicMover).
Hypothesis Hm : MagicMoverModel db !! id = Some m.


(** C6. [unloadItems] on an existing mover: a call that succeeds found the
    mover LOADING (in particular not ON_MISSION) and saved it with no
    items, weight 0 and state RESTING, leaving completedMissions, name and
    weightLimit as they were; in any other state the state machine rejects
    the call and nothing is written; on a schema-valid LOADING mover the
    call does succeed. *)
Theorem unloadItems_requires_loading :
  (forall m' db',
      run (MagicMoverService.unloadItems now id) db = (inr m', db') ->
      state m = LOADING
      /\ items m' = [] /\ currentWeight m' = 0%Q /\ state m' = RESTING
      /\ completedMissions m' = completedMissions m
      /\ name m' = name m /\ weightLimit m' = weightLimit m
      /\ MagicMoverModel db' !! id = Some m'
      /\ MagicItemModel db' = MagicItemModel db)
  /\ (state m <> LOADING ->
        run (MagicMoverService.unloadItems now id) db
        = (inl (InvalidStateTransition "unload" (state m) RESTING), db))
  /\ (state m = LOADING -> MagicMoverSchema_validate m = [] ->
        exists db', run (MagicMoverService.unloadItems now id) db = (inr (unloaded m), db')).
Proof.
  rewrite run_unloadItems, Hm. split_and!.
  - intros m' db'. destruct (state m) eqn:Hstate; try discriminate.
    state_machine_accepts. unfold commitAndLog.
    destruct (MagicMoverSchema_validate (unloaded m)); [| discriminate].
    intros [= <- <-]. cbn. rewrite lookup_insert_eq. done.
  - intros Hstate. by destruct (state m).
  - intros Hstate Hvalid. rewrite Hstate.
    state_machine_accepts. unfold commitAndLog.
    assert (MagicMoverSchema_validate (unloaded m) = []) as ->; [| by eexists].
    still_valid Hvalid.
Qed.

(** C10. On an existing RESTING mover that is schema-valid and within its
    limit, loading the empty list succeeds: the mover is saved in state
    LOADING with the same items and the same weight (so empty and 0 when it
    was empty and 0), and one LOADING entry with itemCount 0 and
    totalWeight 0 is appended to the activity log. *)
Theorem loadItems_nothing :
  state m = RESTING ->
  MagicMoverSchema_validate m = [] ->
  (currentWeight m <= weightLimit m)%Q ->
  exists m' db',
    run (MagicMoverService.loadItems now id []) db = (inr m', db')
    /\ state m' = LOADING
    /\ items m' = items m
    /\ (currentWeight m' == currentWeight m)%Q
    /\ (items m = [] -> currentWeight m = 0%Q ->
        items m' = [] /\ currentWeight m' = 0%Q)
    /\ MagicMoverModel db' = <[id := m']> (MagicMoverModel db)
    /\ ActivityLogModel db'
       = ActivityLogModel db ++
         [ {| moverId := id; activityType := ActivityType.LOADING;
              details := {| previousState := Some "resting";
                            newState := Some "loading";
                            itemIds := Some [];
                            itemCount := Some 0%nat;
                            totalWeight := Some 0%Q;
                            missionsCompleted := None |};
              createdAt := now |} ].
Proof.
  intros Hstate Hvalid Hfits.
  rewrite run_loadItems, Hm. cbn zeta.
  rewrite foundItems_nil, Hstate. cbn [length Nat.eqb negb totalWeightOf foldl].
  state_machine_accepts. cbn [List.filter length Nat.ltb Nat.leb].
  unfold MagicMoverRepository.validateWeightLimit.
  assert (Qle_bool (currentWeight m + 0) (weightLimit m) = true) as ->
    by (apply Qle_bool_iff; lra).
  cbn [negb]. unfold commitAndLog.
  assert (MagicMoverSchema_validate (loaded m [] 0) = []) as ->
    by still_valid Hvalid.
  eexists _, _. split; [reflexivity |]. cbn.
  rewrite app_nil_r, Hstate. split_and!; try done; [lra |].
  intros Hitems ->. done.
Qed.

(** *** Loading distinct ids of existing items *)

Section RequestedItems.

Context (itemIds : list string).
Hypothesis Hdistinct : NoDup itemIds.
Hypothesis Hexist : forall i, i ∈ itemIds -> is_Some (MagicItemModel db !! i).


(** C5, as the code has it.  On an existing mover, with distinct ids of
    existing items at least one of which is already aboard: a mover that is
    RESTING or LOADING makes the call fail with the duplicate-items error
    listing exactly the requested ids that are aboard; an ON_MISSION mover
    makes it fail with the invalid-transition error, because the repository
    validates the transition before it looks for duplicates.  Either way
    the database is left as it was. *)
Theorem loadItems_duplicate :
  (exists i, i ∈ itemIds /\ i ∈ items m) ->
  let duplicates := List.filter (fun itemId => bool_decide (itemId ∈ items m)) itemIds in
  (forall i, i ∈ duplicates <-> i ∈ itemIds /\ i ∈ items m)
  /\ (state m <> ON_MISSION ->
      run (MagicMoverService.loadItems now id itemIds) db
      = (inl (DuplicateItems duplicates), db))
  /\ (state m = ON_MISSION ->
      run (MagicMoverService.loadItems now id itemIds) db
      = (inl (InvalidStateTransition "load" ON_MISSION LOADING), db)).
Proof.
  intros (i & Hi & Haboard) duplicates.
  split.
  { intros j. unfold duplicates. rewrite elem_of_List_filter, bool_decide_eq_true. done. }
  rewrite run_loadItems, Hm. cbn zeta.
  rewrite foundItems_length, Nat.eqb_refl by done. cbn [negb].
  split.
  - intros Hstate.
    assert (MagicMoverStateMachine.validateTransition (state m) LOADING "load" = inr tt)
      as -> by (by destruct (state m)).
    by rewrite (some_duplicates _ _ i).
  - intros ->. reflexivity.
Qed.

End RequestedItems.

End ExistingMover.

(** The route does reject the empty list: the controller's own guard, not
    the service, enforces the non-empty precondition. *)
Lemma controller_load_rejects_empty now id db :
  run (MagicMoverController.load now id []) db
  = (inl (BadRequest "itemIds must be a non-empty array"), db).
Proof. reflexivity. Qed.

(** ** The cargo invariants *)

Lemma sumWeights_insert its _id it ids :
  (forall i, i ∈ ids -> i <> _id) ->
  sumWeights (<[_id := it]> its) ids = sumWeights its ids.
Proof.
  induction ids as [|i ids IH]; intros Hne; [done |].
  rewrite !sumWeights_cons, IH by (intros; apply Hne; by right).
  unfold weightOf. rewrite lookup_insert_ne; [done |].
  intros ->. by apply (Hne i); [left |].
Qed.

Lemma storeInvariant_save db id doc (logs : list IActivityLog) :
  storeInvariant db ->
  cargoInvariant db doc ->
  (forall i, i ∈ items doc -> is_Some (MagicItemModel db !! i)) ->
  storeInvariant (setLogs logs (setMovers (<[id := doc]> (MagicMoverModel db)) db)).
Proof.
  intros Hinv Hdoc Hexist id' m. cbn.
  destruct (decide (id = id')) as [<- | Hne].
  - rewrite lookup_insert_eq. intros [= <-]. done.
  - rewrite lookup_insert_ne by done. apply Hinv.
Qed.

Lemma storeInvariant_commitAndLog now id type m doc ids count weight missions db :
  storeInvariant db ->
  (MagicMoverSchema_validate doc = [] ->
   cargoInvariant db doc /\ (forall i, i ∈ items doc -> is_Some (MagicItemModel db !! i))) ->
  storeInvariant (commitAndLog now id type m doc ids count weight missions db).2.
Proof.
  intros Hinv Hdoc. unfold commitAndLog.
  destruct (MagicMoverSchema_validate doc) eqn:Hvalid; [| done].
  destruct Hdoc as [? ?]; [done |]. by apply storeInvariant_save.
Qed.

Lemma cargoInvariant_emptied db doc :
  MagicMoverSchema_validate doc = [] -> items doc = [] -> currentWeight doc = 0%Q ->
  cargoInvariant db doc /\ (forall i, i ∈ items doc -> is_Some (MagicItemModel db !! i)).
Proof.
  intros (Hlimit & _ & _)%MagicMoverSchema_validate_nil Hitems Hweight.
  unfold cargoInvariant. rewrite Hitems, Hweight. split_and!.
  - reflexivity.
  - done.
  - constructor.
  - intros i Hi. by apply elem_of_nil in Hi.
Qed.

Lemma step_storeInvariant c db : storeInvariant db -> storeInvariant (step c db).
Proof.
  intros Hinv. destruct c as [_id nm w | _id nm wl | now id ids | now id | now id | now id];
    cbn [step].
  - (* createItem *)
    unfold createItem, validationMiddleware, MagicItemService.create,
      MagicItemRepository.create.
    destruct (0 <? _)%nat; [done |].
    destruct (MagicItemSchema_validate _); [| done].
    cbn. destruct (MagicItemModel db !! _id) eqn:Hfresh; [done |]. cbn.
    intros id m Hm. destruct (Hinv id m Hm) as [(Hsum & Hlimit & Hnd) Hexist].
    assert (Hne : forall i, i ∈ items m -> i <> _id).
    { intros i Hi ->. destruct (Hexist _ Hi) as [it Hit]. congruence. }
    split.
    + unfold cargoInvariant. cbn. rewrite sumWeights_insert by done. done.
    + intros i Hi. cbn. rewrite lookup_insert_ne by (intros Heq; by apply (Hne i Hi)).
      by apply Hexist.
  - (* create *)
    unfold MagicMoverService.create, MagicMoverRepository.create.
    destruct (MagicMoverSchema_validate _) eqn:Hvalid; [| done].
    cbn. destruct (MagicMoverModel db !! _id); [done |]. cbn.
    change (setMovers ?movers db) with (setLogs (ActivityLogModel db) (setMovers movers db)).
    apply storeInvariant_save; [done | |]; by apply cargoInvariant_emptied.
  - (* loadItems *)
    rewrite run_loadItems.
    destruct (MagicMoverModel db !! id) as [m|] eqn:Hm; [| done]. cbn zeta.
    destruct (length (foundItems db ids) =? length ids)%nat eqn:Hlen; [| done].
    apply Nat.eqb_eq, foundItems_length_Permutation in Hlen. cbn [negb].
    destruct (MagicMoverStateMachine.validateTransition _ _ _) as [e|[]]; [done |].
    destruct (0 <? _)%nat eqn:Hdup; [done |].
    destruct (MagicMoverRepository.validateWeightLimit _ _) eqn:Hfits; [| done].
    cbn [negb]. apply storeInvariant_commitAndLog; [done |]. intros _.
    destruct (Hinv id m Hm) as [(Hsum & Hlimit & Hnd) Hexist].
    assert (Hall : forall i, i ∈ ids -> is_Some (MagicItemModel db !! i)).
    { intros i Hi. rewrite <- Hlen in Hi.
      apply list_elem_of_fmap in Hi as ([k it] & -> & Hin).
      apply elem_of_foundItems in Hin as [Hin _]. by eexists. }
    assert (Hnew : forall i, i ∈ items m -> i ∉ ids).
    { intros i Hi Hids.
      rewrite (some_duplicates (items m) ids i) in Hdup by done. discriminate. }
    pose proof (sumWeights_app (MagicItemModel db) (items m) ids) as Happ.
    pose proof (totalWeightOf_found db ids Hlen) as Htotal.
    split; [unfold cargoInvariant, loaded;
            cbn [currentWeight items weightLimit]; split_and! |].
    + lra.
    + by apply Qle_bool_iff in Hfits.
    + apply NoDup_app. split_and!; [done | done |].
      rewrite <- Hlen. apply NoDup_foundItems.
    + cbn. intros i [Hi|Hi]%elem_of_app; auto.
  - (* startMission *)
    rewrite run_startMission.
    destruct (MagicMoverModel db !! id) as [m|] eqn:Hm; [| done].
    destruct (MagicMoverStateMachine.validateTransition _ _ _) as [e|[]]; [done |].
    apply storeInvariant_commitAndLog; [done |]. intros _. exact (Hinv id m Hm).
  - (* endMission *)
    rewrite run_endMission.
    destruct (MagicMoverModel db !! id) as [m|] eqn:Hm; [| done].
    destruct (negb _); [done |].
    destruct (MagicMoverStateMachine.validateTransition _ _ _) as [e|[]]; [done |].
    apply storeInvariant_commitAndLog; [done |]. intros Hvalid.
    by apply cargoInvariant_emptied.
  - (* unloadItems *)
    rewrite run_unloadItems.
    destruct (MagicMoverModel db !! id) as [m|] eqn:Hm; [| done].
    destruct (MagicMoverStateMachine.validateTransition _ _ _) as [e|[]]; [done |].
    apply storeInvariant_commitAndLog; [done |]. intros Hvalid.
    by apply cargoInvariant_emptied.
Qed.

Lemma execute_storeInvariant calls db :
  storeInvariant db -> storeInvariant (execute calls db).
Proof.
  revert db. induction calls as [|c calls IH]; intros db Hinv; [done |].
  apply IH, step_storeInvariant, Hinv.
Qed.


(** ** createItem *)


(** ** Two calls at once *)

(** The repository never reports a concurrent modification: the mover
    schema has [versionKey: false], so [save] compares no version. *)
Lemma saveWithOptimisticLocking_never_conflicts id doc db :
  (run (MagicMoverRepository.saveWithOptimisticLocking id doc) db).1
  <> inl ConcurrentModification.
Proof.
  unfold MagicMoverRepository.saveWithOptimisticLocking, Document_save.
  rewrite run_tryCatch, run_bind.
  destruct (MagicMoverSchema_validate doc); cbn; [| done].
  by destruct (MagicMoverModel db !! id).
Qed.

(** With a version key, a save from a stale read is refused. *)
Lemma Document_save_stale opts id doc stored db :
  versionKey opts = true ->
  MagicMoverModel db !! id = Some stored ->
  __v stored <> __v doc ->
  MagicMoverSchema_validate doc = [] ->
  run (Document_save opts id doc) db = (inl MongooseVersionError, db).
Proof.
  intros Hversioned Hstored Hstale Hvalid. unfold Document_save.
  rewrite Hvalid. cbn. rewrite Hstored, Hversioned.
  by rewrite bool_decide_eq_false_2.
Qed.

Lemma endMission_reads now id db m :
  MagicMoverModel db !! id = Some m ->
  state m = ON_MISSION ->
  exists c,
    resume (MagicMoverService.endMission now id) db = (c, db)
    /\ forall db', MagicMoverModel db' !! id = Some m ->
                   resume c db' = (endMissionInFlight now id m, db').
Proof.
  intros Hm Hstate.
  unfold MagicMoverService.endMission, MagicMoverService.verifyMoverExists,
    MagicMoverRepository.findById.
  cbn [resume bind query resolve]. rewrite Hm. cbn [bind resolve].
  rewrite bool_decide_eq_true_2 by done. cbn [negb].
  eexists. split; [reflexivity |].
  intros db' Hm'. unfold MagicMoverRepository.endMission, MagicMoverRepository.findById.
  cbn [resume bind query resolve]. rewrite Hm'. reflexivity.
Qed.

Lemma run_endMissionInFlight now id m stored db :
  MagicMoverModel db !! id = Some stored ->
  state m = ON_MISSION ->
  MagicMoverSchema_validate (ended m) = [] ->
  run (endMissionInFlight now id m) db
  = (inr (ended m),
     logged now id ActivityType.MISSION_ENDED ON_MISSION RESTING None
            (length (items m)) (currentWeight m) (Some (completedMissions (ended m)))
            (setMovers (<[id := ended m]> (MagicMoverModel db)) db)).
Proof.
  intros Hstored Hstate Hvalid. unfold endMissionInFlight.
  rewrite !run_bind. unfold lift. rewrite Hstate. cbn [run].
  change (MagicMoverStateMachine.validateTransition ON_MISSION RESTING "end_mission")
    with (@inr Error unit tt). cbn iota.
  rewrite (run_saveWithOptimisticLocking _ _ stored) by done.
  unfold commit. rewrite Hvalid. reflexivity.
Qed.

(** C8. Two [endMission] calls race on a schema-valid ON_MISSION mover:
    both read the mover before either saves.  Neither call fails: both
    return the mover with one more completed mission, the second save
    silently overwrites the first, and two MISSION_ENDED entries are
    logged. *)
Theorem racing_endMission_both_succeed now1 now2 id db m :
  MagicMoverModel db !! id = Some m ->
  state m = ON_MISSION ->
  MagicMoverSchema_validate m = [] ->
  exists db',
    interleave [true; true; false; false]
               (MagicMoverService.endMission now1 id)
               (MagicMoverService.endMission now2 id) db
    = (inr (ended m), inr (ended m), db')
    /\ MagicMoverModel db' !! id = Some (ended m)
    /\ length (ActivityLogModel db') = S (S (length (ActivityLogModel db))).
Proof.
  intros Hm Hstate Hvalid.
  assert (Hended : MagicMoverSchema_validate (ended m) = []) by still_valid Hvalid.
  destruct (endMission_reads now1 id db m Hm Hstate) as (c1 & Hread1 & Hread1').
  destruct (endMission_reads now2 id db m Hm Hstate) as (c2 & Hread2 & Hread2').
  cbn [interleave].
  rewrite Hread1, (Hread1' db Hm), Hread2, (Hread2' db Hm).
  rewrite (run_endMissionInFlight now1 id m m) by done.
  rewrite (run_endMissionInFlight now2 id m (ended m))
    by (try done; cbn; apply lookup_insert_eq).
  eexists. split; [reflexivity |]. cbn -[ended].
  rewrite lookup_insert_eq, !length_app. cbn. split; [done | lia].
Qed.

(** ** getTopPerformers *)







(** The sort: a permutation, in descending order of the count. *)
Lemma sortInsert_Permutation {A} (before : A -> A -> bool) a l :
  sortInsert before a l ≡ₚ a :: l.
Proof.
  induction l as [|b l IH]; [done |]. cbn [sortInsert].
  destruct (before a b); [done |]. rewrite IH. apply Permutation_swap.
Qed.

Lemma sort_Permutation {A} (before : A -> A -> bool) l : sort before l ≡ₚ l.
Proof.
  induction l as [|a l IH]; [done |].
  cbn [sort foldr]. fold (sort before l).
  rewrite sortInsert_Permutation, IH. done.
Qed.



Lemma List_filter_filter {A} (f g : A -> bool) (l : list A) :
  List.filter f (List.filter g l) = List.filter (fun x => g x && f x) l.
Proof.
  induction l as [|x l IH]; [done |]. cbn [List.filter].
  destruct (g x); cbn [List.filter andb]; [destruct (f x) |]; by rewrite IH.
Qed.








(** ** The properties on the example databases *)




Lemma loadItems_duplicate_witness :
  MagicMoverModel loadingDB !! "m1" = Some gandalfLoading
  /\ "i1" ∈ items gandalfLoading
  /\ run (MagicMoverService.loadItems 2 "m1" ["i1"]) loadingDB
     = (inl (DuplicateItems ["i1"]), loadingDB).
Proof.
  split; [vm_compute; reflexivity |]. split; [left |].
  apply (loadItems_duplicate 2 "m1" loadingDB gandalfLoading).
  - vm_compute. reflexivity.
  - apply NoDup_singleton.
  - intros i ->%list_elem_of_singleton. eexists. vm_compute. reflexivity.
  - exists "i1". split; left.
  - discriminate.
Defined.

(** C5 fails as stated: the mover is ON_MISSION, item [i1] exists and is
    aboard, and loading it again is rejected with the invalid-transition
    error, not with the duplicate-items error. *)
Lemma loadItems_duplicate_on_mission_counterexample :
  MagicMoverModel onMissionDB !! "m1" = Some gandalfOnMission
  /\ state gandalfOnMission = ON_MISSION
  /\ "i1" ∈ items gandalfOnMission
  /\ is_Some (MagicItemModel onMissionDB !! "i1")
  /\ run (MagicMoverService.loadItems 3 "m1" ["i1"]) onMissionDB
     = (inl (InvalidStateTransition "load" ON_MISSION LOADING), onMissionDB)
  /\ forall duplicates,
       (run (MagicMoverService.loadItems 3 "m1" ["i1"]) onMissionDB).1
       <> inl (DuplicateItems duplicates).
Proof.
  split; [vm_compute; reflexivity |]. split; [reflexivity |].
  split; [left |]. split; [eexists; vm_compute; reflexivity |].
  split; [vm_compute; reflexivity |].
  intros duplicates. vm_compute. discriminate.
Qed.

Lemma unloadItems_requires_loading_witness :
  MagicMoverModel loadingDB !! "m1" = Some gandalfLoading
  /\ exists db', run (MagicMoverService.unloadItems 2 "m1") loadingDB
                 = (inr (unloaded gandalfLoading), db').
Proof.
  split; [vm_compute; reflexivity |].
  apply (unloadItems_requires_loading 2 "m1" loadingDB gandalfLoading);
    vm_compute; reflexivity.
Defined.



(** A mover that loaded the item and completed no mission is returned. *)
Lemma getTopPerformers_returns_zero_count :
  loadingsFollowedByMissionEnd stillLoadingDB "x" "c" = 0%nat
  /\ missionEndsAfterLoading stillLoadingDB "x" "c" = 0%nat
  /\ exists result,
       run (MagicMoverService.getTopPerformers (Some "x")) stillLoadingDB
       = (inr result, stillLoadingDB)
       /\ result.*1 = ["c"].
Proof.
  repeat (split; [vm_compute; reflexivity |]).
  eexists. split; vm_compute; reflexivity.
Qed.

Lemma racing_endMission_both_succeed_witness :
  MagicMoverModel onMissionDB !! "m1" = Some gandalfOnMission
  /\ completedMissions gandalfOnMission = 0%Q
  /\ exists db',
       interleave [true; true; false; false]
                  (MagicMoverService.endMission 3 "m1")
                  (MagicMoverService.endMission 4 "m1") onMissionDB
       = (inr (ended gandalfOnMission), inr (ended gandalfOnMission), db')
       /\ MagicMoverModel db' !! "m1" = Some (ended gandalfOnMission)
       /\ length (ActivityLogModel db')
          = S (S (length (ActivityLogModel onMissionDB))).
Proof.
  split; [vm_compute; reflexivity |]. split; [reflexivity |].
  apply (racing_endMission_both_succeed 3 4 "m1" onMissionDB gandalfOnMission);
    vm_compute; reflexivity.
Defined.



Lemma loadItems_nothing_witness :
  MagicMoverModel lowCapacityDB !! "m2" = Some apprentice
  /\ state apprentice = RESTING
  /\ exists m' db',
       run (MagicMoverService.loadItems 1 "m2" []) lowCapacityDB = (inr m', db')
       /\ state m' = LOADING /\ items m' = [] /\ currentWeight m' = 0%Q.
Proof.
  split; [vm_compute; reflexivity |]. split; [reflexivity |].
  destruct (loadItems_nothing 1 "m2" lowCapacityDB apprentice)
    as (m' & db' & Hrun & Hstate & _ & _ & Hempty & _).
  - vm_compute. reflexivity.
  - reflexivity.
  - vm_compute. reflexivity.
  - vm_compute. discriminate.
  - exists m', db'. split; [exact Hrun |]. split; [exact Hstate |].
    apply Hempty; reflexivity.
Defined.

(** * More of the code *)

(** ** The effect of a committed call *)

Lemma validateTransition_accepts currentState targetState act :
  MagicMoverStateMachine.validateTransition currentState targetState act = inr tt ->
  (currentState, targetState, act) ∈ transitionTable.
Proof.
  intros Hvalid. apply canTransition_table.
  unfold MagicMoverStateMachine.validateTransition in Hvalid.
  by destruct (MagicMoverStateMachine.canTransition _ _ _).
Qed.

Lemma commitAndLog_cases now id type m doc ids count weight missions db :
  (commitAndLog now id type m doc ids count weight missions db).2 = db
  \/ (MagicMoverSchema_validate doc = []
      /\ (commitAndLog now id type m doc ids count weight missions db).2
         = logged now id type (state m) (state doc) ids count weight missions
                  (setMovers (<[id := doc]> (MagicMoverModel db)) db)).
Proof.
  unfold commitAndLog. destruct (MagicMoverSchema_validate doc); [right | left]; done.
Qed.

(** Every call either leaves the database as it was or commits one of the
    six effects. *)
Lemma step_Committed c db : step c db = db \/ Committed db (step c db).
Proof.
  destruct c as [_id nm w | _id nm wl | now id ids | now id | now id | now id];
    cbn [step].
  - (* createItem *)
    unfold createItem, validationMiddleware, CreateMagicItemDto.validate,
      MagicItemService.create, MagicItemRepository.create, MagicItemSchema_validate.
    cbn [CreateMagicItemDto.name CreateMagicItemDto.weight MagicItem.name MagicItem.weight].
    destruct (bool_decide (nm = "")); [by left |].
    destruct (Qle_bool w 0) eqn:Hw; [by left |]. cbn [app length Nat.ltb Nat.leb].
    destruct (bool_decide (trim nm = "")) eqn:Hnm; [by left |].
    destruct (Qle_bool 0 w); [| by left]. cbn.
    destruct (MagicItemModel db !! _id) eqn:Hfresh; [by left |]. right. cbn.
    apply Committed_item; cbn; [done | by apply bool_decide_eq_false in Hnm |].
    destruct (Qlt_le_dec 0 w) as [? | Hle]; [done |].
    apply Qle_bool_iff in Hle. congruence.
  - (* create *)
    unfold MagicMoverService.create, MagicMoverRepository.create.
    destruct (MagicMoverSchema_validate _) eqn:Hvalid; [| by left].
    cbn. destruct (MagicMoverModel db !! _id) eqn:Hfresh; [by left |]. right. cbn.
    by apply Committed_mover.
  - (* loadItems *)
    rewrite run_loadItems.
    destruct (MagicMoverModel db !! id) as [m|] eqn:Hm; [| by left]. cbn zeta.
    destruct (length (foundItems db ids) =? length ids)%nat eqn:Hlen; [| by left].
    apply Nat.eqb_eq, foundItems_length_Permutation in Hlen. cbn [negb].
    destruct (MagicMoverStateMachine.validateTransition _ _ _) as [e|[]] eqn:Hstate;
      [by left |].
    destruct (0 <? _)%nat eqn:Hdup; [by left |].
    destruct (MagicMoverRepository.validateWeightLimit _ _) eqn:Hfits; [| by left].
    cbn [negb].
    destruct (commitAndLog_cases now id ActivityType.LOADING m
                (loaded m ids (totalWeightOf (foundItems db ids)))
                (Some ids) (length ids) (totalWeightOf (foundItems db ids)) None db)
      as [-> | [Hvalid ->]]; [by left |].
    right. apply Committed_load; try done.
    + intros Hon. rewrite Hon in Hstate. discriminate.
    + rewrite <- Hlen. apply NoDup_foundItems.
    + intros i Hi. rewrite <- Hlen in Hi.
      apply list_elem_of_fmap in Hi as ([k it] & -> & Hin).
      apply elem_of_foundItems in Hin as [Hin _]. by eexists.
    + intros i Hi Haboard.
      rewrite (some_duplicates (items m) ids i) in Hdup by done. discriminate.
    + by apply totalWeightOf_found.
    + by apply Qle_bool_iff in Hfits.
  - (* startMission *)
    rewrite run_startMission.
    destruct (MagicMoverModel db !! id) as [m|] eqn:Hm; [| by left].
    destruct (MagicMoverStateMachine.validateTransition _ _ _) as [e|[]] eqn:Hstate;
      [by left |].
    destruct (commitAndLog_cases now id ActivityType.MISSION_STARTED m (started m)
                None (length (items m)) (currentWeight m) None db)
      as [-> | [Hvalid ->]]; [by left |].
    assert (state m = LOADING) as Hloading by (by destruct (state m)).
    right. rewrite Hloading. by apply Committed_start.
  - (* endMission *)
    rewrite run_endMission.
    destruct (MagicMoverModel db !! id) as [m|] eqn:Hm; [| by left].
    destruct (bool_decide (state m = ON_MISSION)) eqn:Hon; [| by left].
    apply bool_decide_eq_true in Hon. cbn [negb].
    destruct (MagicMoverStateMachine.validateTransition _ _ _) as [e|[]];
      [by left |].
    destruct (commitAndLog_cases now id ActivityType.MISSION_ENDED m (ended m)
                None (length (items m)) (currentWeight m)
                (Some (completedMissions (ended m))) db)
      as [-> | [Hvalid ->]]; [by left |].
    right. rewrite Hon. by apply Committed_end.
  - (* unloadItems *)
    rewrite run_unloadItems.
    destruct (MagicMoverModel db !! id) as [m|] eqn:Hm; [| by left].
    destruct (MagicMoverStateMachine.validateTransition _ _ _) as [e|[]] eqn:Hstate;
      [by left |].
    destruct (commitAndLog_cases now id ActivityType.UNLOADING m (unloaded m)
                None (length (items m)) (currentWeight m) None db)
      as [-> | [Hvalid ->]]; [by left |].
    assert (state m = LOADING) as Hloading by (by destruct (state m)).
    right. rewrite Hloading. by apply Committed_unload.
Qed.

(** An invariant of the committed effects holds after every sequence of
    calls. *)
Lemma execute_invariant (P : DB -> Prop) :
  (forall db db', P db -> Committed db db' -> P db') ->
  forall calls db, P db -> P (execute calls db).
Proof.
  intros Hstep calls. induction calls as [|c calls IH]; intros db HP; [done |].
  apply IH. destruct (step_Committed c db) as [-> | Hcommitted]; [done |].
  by apply (Hstep db).
Qed.

(** ** What holds in every database that the calls reach *)

Lemma moverWellFormed_emptied doc :
  MagicMoverSchema_validate doc = [] -> items doc = [] -> currentWeight doc = 0%Q ->
  moverWellFormed doc.
Proof. by intros Hvalid Hitems Hweight. Qed.

(** The lookup of [id'] after the document under [id] was saved: the saved
    document, or what the invariant [Hinv] covers. *)
Ltac saved_or_kept id id' Hinv :=
  destruct (decide (id = id')) as [<- | ?];
  [rewrite lookup_insert_eq; intros [= <-]
  | rewrite lookup_insert_ne by done; apply Hinv].

Lemma Committed_moverWellFormed db db' :
  (forall id m, MagicMoverModel db !! id = Some m -> moverWellFormed m) ->
  Committed db db' ->
  forall id m, MagicMoverModel db' !! id = Some m -> moverWellFormed m.
Proof.
  intros Hinv Hcommitted id' m'.
  destruct Hcommitted as [_id it | _id doc | now id m ids tw | now id m | now id m | now id m];
    cbn; [apply Hinv | saved_or_kept _id id' Hinv | saved_or_kept id id' Hinv ..].
  - by apply moverWellFormed_emptied.
  - split; [done | discriminate].
  - split; [done | discriminate].
  - by apply moverWellFormed_emptied.
  - by apply moverWellFormed_emptied.
Qed.

(** X1. In every database reached by the calls from the empty one, every
    mover document passes the schema validators, a RESTING mover carries
    nothing (no items, weight 0), and every id aboard a mover refers to an
    item that exists. *)
Theorem reachable_movers_wellformed calls id m :
  MagicMoverModel (execute calls emptyDB) !! id = Some m ->
  (0 <= weightLimit m /\ 0 <= currentWeight m /\ 0 <= completedMissions m)%Q
  /\ (state m = RESTING -> items m = [] /\ currentWeight m = 0%Q)
  /\ (forall i, i ∈ items m -> is_Some (MagicItemModel (execute calls emptyDB) !! i)).
Proof.
  intros Hm.
  assert (Hwf : moverWellFormed m).
  { revert id m Hm.
    apply (execute_invariant
             (fun db => forall id m, MagicMoverModel db !! id = Some m -> moverWellFormed m)).
    - apply Committed_moverWellFormed.
    - intros id m Hm. cbn in Hm. by rewrite lookup_empty in Hm. }
  destruct Hwf as [Hvalid Hresting].
  split; [by apply MagicMoverSchema_validate_nil |]. split; [done |].
  eapply execute_storeInvariant; [| exact Hm].
  intros id' m' Hm'. cbn in Hm'. by rewrite lookup_empty in Hm'.
Qed.

Lemma Committed_items_valid db db' :
  (forall _id it, MagicItemModel db !! _id = Some it ->
                  MagicItem.name it <> "" /\ (0 < MagicItem.weight it)%Q) ->
  Committed db db' ->
  forall _id it, MagicItemModel db' !! _id = Some it ->
                 MagicItem.name it <> "" /\ (0 < MagicItem.weight it)%Q.
Proof.
  intros Hinv Hcommitted _id' it'.
  destruct Hcommitted as [_id it | _id doc | now id m ids tw | now id m | now id m
                          | now id m]; cbn; try apply Hinv.
  destruct (decide (_id = _id')) as [<- | Hne].
  - rewrite lookup_insert_eq. by intros [= <-].
  - rewrite lookup_insert_ne by done. apply Hinv.
Qed.

(** X2. In every database reached by the calls, every item has a name
    that is not empty and a weight that is strictly positive. *)
Theorem reachable_items_valid calls _id it :
  MagicItemModel (execute calls emptyDB) !! _id = Some it ->
  MagicItem.name it <> "" /\ (0 < MagicItem.weight it)%Q.
Proof.
  revert _id it.
  apply (execute_invariant
           (fun db => forall _id it, MagicItemModel db !! _id = Some it ->
                                     MagicItem.name it <> "" /\ (0 < MagicItem.weight it)%Q)).
  - apply Committed_items_valid.
  - intros _id it Hit. cbn in Hit. by rewrite lookup_empty in Hit.
Qed.

Lemma missionsLogged_logged now id type before after ids count weight missions db mid :
  missionsLogged (logged now id type before after ids count weight missions db) mid
  = (missionsLogged db mid
     + if bool_decide (id = mid) && bool_decide (type = ActivityType.MISSION_ENDED)
       then 1 else 0)%nat.
Proof.
  unfold missionsLogged, logged. cbn [ActivityLogModel setLogs].
  rewrite List.filter_app, length_app. cbn [List.filter].
  unfold isMissionEndedOf at 2. cbn [moverId activityType].
  by destruct (_ && _).
Qed.

Lemma Committed_historyInvariant db db' :
  historyInvariant db -> Committed db db' -> historyInvariant db'.
Proof.
  intros [Hlogs Hcount] Hcommitted.
  destruct Hcommitted as [_id it | _id doc Hfresh _ _ _ Hzero _
                          | now id m ids tw Hm | now id m Hm | now id m Hm | now id m Hm].
  - done.
  - split; cbn.
    + intros log Hlog. destruct (Hlogs log Hlog) as [m Hm].
      destruct (decide (_id = moverId log)) as [Heq | Hne].
      * rewrite <- Heq in Hm. congruence.
      * rewrite lookup_insert_ne by done. by eexists.
    + intros id' m'. destruct (decide (_id = id')) as [<- | Hne].
      * rewrite lookup_insert_eq. intros [= <-]. rewrite Hzero.
        unfold missionsLogged. cbn [ActivityLogModel setMovers].
        assert (List.filter (isMissionEndedOf _id) (ActivityLogModel db) = []) as ->;
          [| reflexivity].
        destruct (List.filter _ _) as [|log l] eqn:Hfilter; [done |].
        assert (Hin : log ∈ List.filter (isMissionEndedOf _id) (ActivityLogModel db))
          by (rewrite Hfilter; left).
        apply elem_of_List_filter in Hin as [Hin Hof].
        apply andb_true_iff in Hof as [Hof _]. apply bool_decide_eq_true in Hof.
        destruct (Hlogs log Hin) as [m Hm]. congruence.
      * rewrite lookup_insert_ne by done. apply Hcount.
  - split.
    + intros log. cbn. intros [Hlog | ->%list_elem_of_singleton]%elem_of_app; cbn.
      * destruct (decide (id = moverId log)) as [<- | Hne];
          [rewrite lookup_insert_eq | rewrite lookup_insert_ne by done; by apply Hlogs];
          by eexists.
      * rewrite lookup_insert_eq. by eexists.
    + intros id' m'. rewrite missionsLogged_logged. cbn [andb bool_decide].
      rewrite andb_false_r, Nat.add_0_r. cbn.
      destruct (decide (id = id')) as [<- | Hne].
      * rewrite lookup_insert_eq. intros [= <-]. cbn. by apply Hcount.
      * rewrite lookup_insert_ne by done. apply Hcount.
  - split.
    + intros log. cbn. intros [Hlog | ->%list_elem_of_singleton]%elem_of_app; cbn.
      * destruct (decide (id = moverId log)) as [<- | Hne];
          [rewrite lookup_insert_eq | rewrite lookup_insert_ne by done; by apply Hlogs];
          by eexists.
      * rewrite lookup_insert_eq. by eexists.
    + intros id' m'. rewrite missionsLogged_logged.
      rewrite andb_false_r, Nat.add_0_r. cbn.
      destruct (decide (id = id')) as [<- | Hne].
      * rewrite lookup_insert_eq. intros [= <-]. cbn. by apply Hcount.
      * rewrite lookup_insert_ne by done. apply Hcount.
  - split.
    + intros log. cbn. intros [Hlog | ->%list_elem_of_singleton]%elem_of_app; cbn.
      * destruct (decide (id = moverId log)) as [<- | Hne];
          [rewrite lookup_insert_eq | rewrite lookup_insert_ne by done; by apply Hlogs];
          by eexists.
      * rewrite lookup_insert_eq. by eexists.
    + intros id' m'. rewrite missionsLogged_logged.
      rewrite andb_true_r. cbn [setMovers MagicMoverModel logged setLogs].
      destruct (decide (id = id')) as [<- | Hne].
      * rewrite lookup_insert_eq, bool_decide_eq_true_2 by done. intros [= <-].
        cbn [completedMissions ended]. rewrite (Hcount id m Hm).
        rewrite Nat.add_1_r, Nat2Z.inj_succ, <- Z.add_1_r, inject_Z_plus.
        unfold missionsLogged. cbn. reflexivity.
      * rewrite lookup_insert_ne, bool_decide_eq_false_2, Nat.add_0_r by done.
        apply Hcount.
  - split.
    + intros log. cbn. intros [Hlog | ->%list_elem_of_singleton]%elem_of_app; cbn.
      * destruct (decide (id = moverId log)) as [<- | Hne];
          [rewrite lookup_insert_eq | rewrite lookup_insert_ne by done; by apply Hlogs];
          by eexists.
      * rewrite lookup_insert_eq. by eexists.
    + intros id' m'. rewrite missionsLogged_logged.
      rewrite andb_false_r, Nat.add_0_r. cbn.
      destruct (decide (id = id')) as [<- | Hne].
      * rewrite lookup_insert_eq. intros [= <-]. cbn. by apply Hcount.
      * rewrite lookup_insert_ne by done. apply Hcount.
Qed.

(** X3. In every database reached by the calls, [completedMissions] of a
    mover is the number of MISSION_ENDED entries that the activity log
    holds for it, and every log entry belongs to a mover that exists. *)
Theorem completedMissions_is_logged calls :
  (forall id m, MagicMoverModel (execute calls emptyDB) !! id = Some m ->
     (completedMissions m
      == inject_Z (Z.of_nat (missionsLogged (execute calls emptyDB) id)))%Q)
  /\ (forall log, log ∈ ActivityLogModel (execute calls emptyDB) ->
        is_Some (MagicMoverModel (execute calls emptyDB) !! moverId log)).
Proof.
  assert (Hinv : historyInvariant (execute calls emptyDB)).
  { apply (execute_invariant historyInvariant); [apply Committed_historyInvariant |].
    split; cbn.
    - intros log Hlog. by apply elem_of_nil in Hlog.
    - intros id m Hm. by rewrite lookup_empty in Hm. }
  destruct Hinv as [Hlogs Hcount]. by split.
Qed.

(** ** What the calls never do *)

Lemma Committed_monotone db db' :
  Committed db db' ->
  ActivityLogModel db `prefix_of` ActivityLogModel db'
  /\ MagicItemModel db ⊆ MagicItemModel db'
  /\ (forall id m, MagicMoverModel db !! id = Some m ->
        exists m', MagicMoverModel db' !! id = Some m'
                   /\ name m' = name m /\ weightLimit m' = weightLimit m).
Proof.
  assert (Hsaved : forall id (m doc : IMagicMover) (movers : gmap string IMagicMover),
            movers !! id = Some m -> name doc = name m -> weightLimit doc = weightLimit m ->
            forall id' m0, movers !! id' = Some m0 ->
              exists m', <[id := doc]> movers !! id' = Some m'
                         /\ name m' = name m0 /\ weightLimit m' = weightLimit m0).
  { intros id m doc movers Hm Hname Hlimit id' m0 Hm0.
    destruct (decide (id = id')) as [<- | Hne].
    - rewrite lookup_insert_eq. exists doc. split; [done |]. by simplify_eq.
    - rewrite lookup_insert_ne by done. by exists m0. }
  intros [_id it Hfresh | _id doc Hfresh | now id m ids tw Hm | now id m Hm
          | now id m Hm | now id m Hm]; cbn.
  - split; [done |]. split; [by apply insert_subseteq |]. intros id m Hm. by exists m.
  - split; [done |]. split; [done |]. intros id m Hm. exists m. split; [| done].
    rewrite lookup_insert_ne; [done |]. intros ->. congruence.
  - split; [by apply prefix_app_r |]. split; [done |]. by apply (Hsaved id m).
  - split; [by apply prefix_app_r |]. split; [done |]. by apply (Hsaved id m).
  - split; [by apply prefix_app_r |]. split; [done |]. by apply (Hsaved id m).
  - split; [by apply prefix_app_r |]. split; [done |]. by apply (Hsaved id m).
Qed.

(** X4. Whatever calls follow, on any database: the activity log only
    grows at its end (no entry is changed, removed or reordered), no item
    is changed or removed, and no mover is removed, renamed or given
    another weight limit. *)
Theorem calls_only_append calls db :
  ActivityLogModel db `prefix_of` ActivityLogModel (execute calls db)
  /\ MagicItemModel db ⊆ MagicItemModel (execute calls db)
  /\ (forall id m, MagicMoverModel db !! id = Some m ->
        exists m', MagicMoverModel (execute calls db) !! id = Some m'
                   /\ name m' = name m /\ weightLimit m' = weightLimit m).
Proof.
  apply (execute_invariant
           (fun db' =>
              ActivityLogModel db `prefix_of` ActivityLogModel db'
              /\ MagicItemModel db ⊆ MagicItemModel db'
              /\ (forall id m, MagicMoverModel db !! id = Some m ->
                    exists m', MagicMoverModel db' !! id = Some m'
                               /\ name m' = name m /\ weightLimit m' = weightLimit m))).
  - intros db1 db2 (Hlog & Hitems & Hmovers) Hcommitted.
    destruct (Committed_monotone db1 db2 Hcommitted) as (Hlog' & Hitems' & Hmovers').
    split; [by etrans |]. split; [by etrans |].
    intros id m Hm. destruct (Hmovers id m Hm) as (m1 & Hm1 & Hname1 & Hlimit1).
    destruct (Hmovers' id m1 Hm1) as (m2 & Hm2 & Hname2 & Hlimit2).
    exists m2. split; [done |]. split; congruence.
  - split; [done |]. split; [done |]. intros id m Hm. by exists m.
Qed.

Lemma commitAndLog_rejected now id type m doc ids count weight missions db e db' :
  commitAndLog now id type m doc ids count weight missions db = (inl e, db') -> db' = db.
Proof.
  unfold commitAndLog. destruct (MagicMoverSchema_validate doc); [discriminate |].
  by intros [= _ <-].
Qed.

(** The usual end of a case analysis on a rejected call: each rejecting
    branch returns the database it was given. *)
Ltac rejected_unchanged :=
  repeat match goal with
         | |- (inl _, _) = (inl _, _) -> _ => by intros [= _ <-]
         | |- (inr _, _) = (inl _, _) -> _ => discriminate
         | |- commitAndLog _ _ _ _ _ _ _ _ _ _ = _ -> _ => apply commitAndLog_rejected
         | |- context [match ?x with _ => _ end] => destruct x
         end.

(** X5. A call that is rejected has written nothing: for each of the four
    mover operations, for the creation of a mover and for the creation of
    an item, a result that is an error comes with the database unchanged. *)
Theorem rejected_call_writes_nothing db e db' :
  (forall now id itemIds,
     run (MagicMoverService.loadItems now id itemIds) db = (inl e, db') -> db' = db)
  /\ (forall now id,
        run (MagicMoverService.startMission now id) db = (inl e, db') -> db' = db)
  /\ (forall now id,
        run (MagicMoverService.endMission now id) db = (inl e, db') -> db' = db)
  /\ (forall now id,
        run (MagicMoverService.unloadItems now id) db = (inl e, db') -> db' = db)
  /\ (forall _id data,
        run (MagicMoverService.create _id data) db = (inl e, db') -> db' = db)
  /\ (forall _id name weight,
        run (createItem _id name weight) db = (inl e, db') -> db' = db).
Proof.
  split_and!.
  - intros now id ids. rewrite run_loadItems. cbn zeta. rejected_unchanged.
  - intros now id. rewrite run_startMission. rejected_unchanged.
  - intros now id. rewrite run_endMission. rejected_unchanged.
  - intros now id. rewrite run_unloadItems. rejected_unchanged.
  - intros _id data. unfold MagicMoverService.create, MagicMoverRepository.create.
    destruct (MagicMoverSchema_validate _); cbn; [| by intros [= _ <-]].
    destruct (MagicMoverModel db !! _id); [by intros [= _ <-] | discriminate].
  - intros _id nm w. unfold createItem, validationMiddleware, MagicItemService.create,
      MagicItemRepository.create.
    destruct (0 <? _)%nat; [by intros [= _ <-] |].
    destruct (MagicItemSchema_validate _); cbn; [| by intros [= _ <-]].
    destruct (MagicItemModel db !! _id); [by intros [= _ <-] | discriminate].
Qed.

(** ** One log entry for each committed transition *)

Lemma commitAndLog_committed now id type m doc ids count weight missions db m' db' :
  MagicMoverModel db !! id = Some m ->
  commitAndLog now id type m doc ids count weight missions db = (inr m', db') ->
  transitionLogged type now id db db' m'.
Proof.
  intros Hm. unfold commitAndLog.
  destruct (MagicMoverSchema_validate doc); [| discriminate].
  intros [= <- <-]. unfold transitionLogged. cbn. rewrite Hm.
  split; [done |]. split; [done |]. eexists. split; [reflexivity |]. done.
Qed.

(** The call succeeded: the branches that reject are ruled out and the
    commit is left. *)
Ltac committed_transition Hm :=
  repeat match goal with
         | |- (inl _, _) = (inr _, _) -> _ => discriminate
         | |- commitAndLog _ _ _ _ _ _ _ _ _ _ = _ -> _ =>
             by apply commitAndLog_committed
         | |- context [match ?x with _ => _ end] => destruct x
         end.

(** X6. Each of the four mover operations that succeeds saves exactly the
    mover document it returns under the id it was called with, leaves every
    item and every other mover as they were, and appends exactly one entry
    to the activity log: of the type of the operation, for that mover,
    stamped with the time of the call, with the state before and the state
    after. *)
Theorem committed_transition_logs_once now id db m' db' :
  (forall itemIds,
     run (MagicMoverService.loadItems now id itemIds) db = (inr m', db') ->
     transitionLogged ActivityType.LOADING now id db db' m')
  /\ (run (MagicMoverService.startMission now id) db = (inr m', db') ->
      transitionLogged ActivityType.MISSION_STARTED now id db db' m')
  /\ (run (MagicMoverService.endMission now id) db = (inr m', db') ->
      transitionLogged ActivityType.MISSION_ENDED now id db db' m')
  /\ (run (MagicMoverService.unloadItems now id) db = (inr m', db') ->
      transitionLogged ActivityType.UNLOADING now id db db' m').
Proof.
  split_and!.
  - intros ids. rewrite run_loadItems.
    destruct (MagicMoverModel db !! id) as [m|] eqn:Hm; [| discriminate].
    cbn zeta. committed_transition Hm.
  - rewrite run_startMission.
    destruct (MagicMoverModel db !! id) as [m|] eqn:Hm; [| discriminate].
    committed_transition Hm.
  - rewrite run_endMission.
    destruct (MagicMoverModel db !! id) as [m|] eqn:Hm; [| discriminate].
    committed_transition Hm.
  - rewrite run_unloadItems.
    destruct (MagicMoverModel db !! id) as [m|] eqn:Hm; [| discriminate].
    committed_transition Hm.
Qed.

(** ** startMission *)

Section StartMission.

Context (now : Z) (id : string) (db : DB) (m : IMagicMover).
Hypothesis Hm : MagicMoverModel db !! id = Some m.


End StartMission.

(** ** A mover that does not exist *)


(** ** Items that do not exist, ids that repeat *)

Section ItemsExistenceCheck.

Context (now : Z) (id : string) (db : DB) (m : IMagicMover).
Hypothesis Hm : MagicMoverModel db !! id = Some m.



End ItemsExistenceCheck.

(** ** A whole mission, and a load that is taken back *)



Section RestingMover.

Context (calls : list Call) (db : DB) (id : string) (m : IMagicMover).
Context (itemIds : list string).
Hypothesis Hreached : db = execute calls emptyDB.
Hypothesis Hm : MagicMoverModel db !! id = Some m.
Hypothesis Hresting : state m = RESTING.
Hypothesis Hdistinct : NoDup itemIds.
Hypothesis Hexist : forall i, i ∈ itemIds -> is_Some (MagicItemModel db !! i).
Hypothesis Hfits : (sumWeights (MagicItemModel db) itemIds <= weightLimit m)%Q.




End RestingMover.

(** ** The state machine: target states and allowed transitions *)

Lemma getTargetState_table currentState act targetState :
  MagicMoverStateMachine.getTargetState currentState act = Some targetState
  <-> (currentState, targetState, act) ∈ transitionTable.
Proof.
  unfold transitionTable. rewrite !elem_of_cons, elem_of_nil. split.
  - unfold MagicMoverStateMachine.getTargetState, MagicMoverStateMachine.TRANSITIONS.
    cbn [List.find MagicMoverStateMachine.from MagicMoverStateMachine.action].
    destruct currentState;
      repeat (rewrite (bool_decide_eq_false_2 (_ = _ :> MagicMoverState)) by done;
              cbn [andb]);
      repeat (rewrite (bool_decide_eq_true_2 (_ = _ :> MagicMoverState)) by done;
              cbn [andb]);
      repeat (case_bool_decide; cbn [fmap option_fmap option_map MagicMoverStateMachine.to];
              [intros [= <-]; subst act; eauto 10 |]);
      try discriminate.
  - intros H. repeat destruct H as [H|H]; try done; simplify_eq; reflexivity.
Qed.

(** X12. [getTargetState] and [canTransition] agree: the state machine
    gives a target state for a state and an action exactly when the
    transition to that target is allowed, so a state and an action
    determine the target; it gives none exactly when the action is allowed
    to no target. *)
Theorem getTargetState_agrees_with_canTransition currentState act :
  (forall targetState,
     MagicMoverStateMachine.getTargetState currentState act = Some targetState
     <-> MagicMoverStateMachine.canTransition currentState targetState act = true)
  /\ (MagicMoverStateMachine.getTargetState currentState act = None
      <-> forall targetState,
            MagicMoverStateMachine.canTransition currentState targetState act = false)
  /\ (forall t1 t2,
        MagicMoverStateMachine.canTransition currentState t1 act = true ->
        MagicMoverStateMachine.canTransition currentState t2 act = true -> t1 = t2).
Proof.
  assert (Hagree : forall targetState,
    MagicMoverStateMachine.getTargetState currentState act = Some targetState
    <-> MagicMoverStateMachine.canTransition currentState targetState act = true).
  { intros targetState. by rewrite getTargetState_table, canTransition_table. }
  split; [done |]. split.
  - split.
    + intros Hnone targetState.
      destruct (MagicMoverStateMachine.canTransition _ _ _) eqn:Hcan; [| done].
      apply Hagree in Hcan. congruence.
    + intros Hnone.
      destruct (MagicMoverStateMachine.getTargetState _ _) as [t|]; [| done].
      pose proof (proj1 (Hagree t) eq_refl) as Hcan. by rewrite Hnone in Hcan.
  - intros t1 t2 H1%Hagree H2%Hagree. congruence.
Qed.

(** X13. [getAllowedTransitions] lists exactly the transitions that
    [canTransition] allows from the state, each once, and the list is never
    empty: no state is a dead end. *)
Theorem getAllowedTransitions_exact currentState :
  (forall targetState act,
     {| MagicMoverStateMachine.from := currentState;
        MagicMoverStateMachine.to := targetState;
        MagicMoverStateMachine.action := act |}
     ∈ MagicMoverStateMachine.getAllowedTransitions currentState
     <-> MagicMoverStateMachine.canTransition currentState targetState act = true)
  /\ (forall transition,
        transition ∈ MagicMoverStateMachine.getAllowedTransitions currentState ->
        MagicMoverStateMachine.from transition = currentState)
  /\ NoDup (MagicMoverStateMachine.getAllowedTransitions currentState)
  /\ MagicMoverStateMachine.getAllowedTransitions currentState <> [].
Proof.
  assert (Hlist : MagicMoverStateMachine.getAllowedTransitions currentState
    = match currentState with
      | RESTING => [ MagicMoverStateMachine.Build_StateTransition RESTING LOADING "load" ]
      | LOADING =>
          [ MagicMoverStateMachine.Build_StateTransition LOADING LOADING "load";
            MagicMoverStateMachine.Build_StateTransition LOADING ON_MISSION "start_mission";
            MagicMoverStateMachine.Build_StateTransition LOADING RESTING "unload" ]
      | ON_MISSION =>
          [ MagicMoverStateMachine.Build_StateTransition ON_MISSION RESTING "end_mission" ]
      end) by (by destruct currentState).
  split_and!.
  - intros targetState act. rewrite canTransition_table, Hlist.
    unfold transitionTable. rewrite !elem_of_cons, elem_of_nil.
    destruct currentState; rewrite ?elem_of_cons, ?elem_of_nil; split; intros H;
      repeat destruct H as [H|H]; try done; simplify_eq; eauto 10.
  - intros transition [_ Hfrom]%elem_of_List_filter. by apply bool_decide_eq_true in Hfrom.
  - rewrite Hlist. destruct currentState; repeat constructor;
      rewrite ?elem_of_cons, ?elem_of_nil; intros H; repeat destruct H as [H|H]; done.
  - rewrite Hlist. by destruct currentState.
Qed.

(** X14. The state that a mover operation saves is the one the state
    machine gives: when one of the four operations succeeds on a mover, the
    state of the returned document is [getTargetState] of the state the
    mover was in and the action of the operation. *)
Theorem saved_state_is_target_state now id db m m' db' :
  MagicMoverModel db !! id = Some m ->
  (forall itemIds,
     run (MagicMoverService.loadItems now id itemIds) db = (inr m', db') ->
     MagicMoverStateMachine.getTargetState (state m) "load" = Some (state m'))
  /\ (run (MagicMoverService.startMission now id) db = (inr m', db') ->
      MagicMoverStateMachine.getTargetState (state m) "start_mission" = Some (state m'))
  /\ (run (MagicMoverService.endMission now id) db = (inr m', db') ->
      MagicMoverStateMachine.getTargetState (state m) "end_mission" = Some (state m'))
  /\ (run (MagicMoverService.unloadItems now id) db = (inr m', db') ->
      MagicMoverStateMachine.getTargetState (state m) "unload" = Some (state m')).
Proof.
  intros Hm.
  assert (Hcommit : forall type doc ids count weight missions target act,
    MagicMoverStateMachine.validateTransition (state m) target act = inr tt ->
    state doc = target ->
    commitAndLog now id type m doc ids count weight missions db = (inr m', db') ->
    MagicMoverStateMachine.getTargetState (state m) act = Some (state m')).
  { intros type doc ids count weight missions target act Hvalid Hstate.
    unfold commitAndLog. destruct (MagicMoverSchema_validate doc); [| discriminate].
    intros [= <- _]. rewrite Hstate.
    by apply getTargetState_table, validateTransition_accepts. }
  split_and!.
  - intros ids. rewrite run_loadItems, Hm. cbn zeta.
    destruct (negb _); [discriminate |].
    destruct (MagicMoverStateMachine.validateTransition _ _ _) as [|[]] eqn:Hvalid;
      [discriminate |].
    destruct (0 <? _)%nat; [discriminate |]. destruct (negb _); [discriminate |].
    intros Hc. eapply Hcommit; [exact Hvalid | | exact Hc]; reflexivity.
  - rewrite run_startMission, Hm.
    destruct (MagicMoverStateMachine.validateTransition _ _ _) as [|[]] eqn:Hvalid;
      [discriminate |].
    intros Hc. eapply Hcommit; [exact Hvalid | | exact Hc]; reflexivity.
  - rewrite run_endMission, Hm. destruct (negb _); [discriminate |].
    destruct (MagicMoverStateMachine.validateTransition _ _ _) as [|[]] eqn:Hvalid;
      [discriminate |].
    intros Hc. eapply Hcommit; [exact Hvalid | | exact Hc]; reflexivity.
  - rewrite run_unloadItems, Hm.
    destruct (MagicMoverStateMachine.validateTransition _ _ _) as [|[]] eqn:Hvalid;
      [discriminate |].
    intros Hc. eapply Hcommit; [exact Hvalid | | exact Hc]; reflexivity.
Qed.

(** ** The activity log of a mover *)

Lemma entriesOf_logged now id type before after ids count weight missions db mid type' :
  entriesOf (logged now id type before after ids count weight missions db) mid type'
  = (entriesOf db mid type'
     + if bool_decide (id = mid) && bool_decide (type = type') then 1 else 0)%nat.
Proof.
  unfold entriesOf, logged. cbn [ActivityLogModel setLogs].
  rewrite List.filter_app, length_app. cbn [List.filter moverId activityType].
  by destruct (_ && _).
Qed.

Lemma entriesOf_setMovers movers db mid type :
  entriesOf (setMovers movers db) mid type = entriesOf db mid type.
Proof. reflexivity. Qed.

Lemma entriesOf_unknown db mid type :
  (forall log, log ∈ ActivityLogModel db -> is_Some (MagicMoverModel db !! moverId log)) ->
  MagicMoverModel db !! mid = None -> entriesOf db mid type = 0%nat.
Proof.
  intros Hlogs Hnone. unfold entriesOf.
  destruct (List.filter _ _) as [|log l] eqn:Hfilter; [done |].
  assert (Hin : log ∈ log :: l) by left. rewrite <- Hfilter in Hin.
  apply elem_of_List_filter in Hin as [Hin Hof].
  apply andb_true_iff in Hof as [Hof _]. apply bool_decide_eq_true in Hof.
  destruct (Hlogs log Hin) as [m Hm]. congruence.
Qed.

(** The log entries after a transition of mover [id] was logged. *)
Lemma logged_entries_known now id type before after ids count weight missions doc db :
  (forall log, log ∈ ActivityLogModel db -> is_Some (MagicMoverModel db !! moverId log)) ->
  forall log,
    log ∈ ActivityLogModel
            (logged now id type before after ids count weight missions
                    (setMovers (<[id := doc]> (MagicMoverModel db)) db)) ->
    is_Some (<[id := doc]> (MagicMoverModel db) !! moverId log).
Proof.
  intros Hlogs log. cbn. intros [Hlog | ->%list_elem_of_singleton]%elem_of_app; cbn.
  - destruct (decide (id = moverId log)) as [<- | Hne];
      [rewrite lookup_insert_eq | rewrite lookup_insert_ne by done; by apply Hlogs];
      by eexists.
  - rewrite lookup_insert_eq. by eexists.
Qed.

(** A transition of mover [id] was logged: the counts of [id] move by one
    entry of the type, those of the other movers stay. *)
Ltac count_entries id id' Hcount Hm :=
  intros id' m'; unfold logMatchesState;
  rewrite !entriesOf_logged, !entriesOf_setMovers;
  cbn [setMovers MagicMoverModel logged setLogs];
  destruct (decide (id = id')) as [<- | Hne];
  [ rewrite lookup_insert_eq; intros [= <-];
    rewrite !(bool_decide_eq_true_2 (id = id)) by done;
    pose proof (Hcount _ _ Hm) as [Hstarted Hloadings]; cbn in *
  | rewrite lookup_insert_ne by done;
    rewrite !(bool_decide_eq_false_2 (id = id')) by done;
    cbn [andb]; rewrite !Nat.add_0_r; apply Hcount ].

(** The comparisons of two states, or of two activity types, that are
    decided. *)
Ltac decided :=
  repeat match goal with
         | |- context [bool_decide ?P] =>
             first [rewrite (bool_decide_eq_true_2 P) by done
                   | rewrite (bool_decide_eq_false_2 P) by done]
         | H : context [bool_decide ?P] |- _ =>
             first [rewrite (bool_decide_eq_true_2 P) in H by done
                   | rewrite (bool_decide_eq_false_2 P) in H by done]
         end.

Lemma Committed_logInvariant db db' :
  logInvariant db -> Committed db db' -> logInvariant db'.
Proof.
  intros [Hlogs Hcount] Hcommitted.
  destruct Hcommitted as [_id it | _id doc Hfresh Hresting _ _ _ _
                          | now id m ids tw Hm Hstate | now id m Hm Hstate
                          | now id m Hm Hstate | now id m Hm Hstate].
  - done.
  - split; cbn.
    + intros log Hlog. destruct (Hlogs log Hlog) as [m Hm].
      destruct (decide (_id = moverId log)) as [Heq | Hne].
      * rewrite <- Heq in Hm. congruence.
      * rewrite lookup_insert_ne by done. by eexists.
    + intros id' m'. destruct (decide (_id = id')) as [<- | Hne].
      * rewrite lookup_insert_eq. intros [= <-]. unfold logMatchesState.
        rewrite !entriesOf_setMovers, !(entriesOf_unknown db _id) by done.
        by rewrite Hresting.
      * rewrite lookup_insert_ne by done. apply Hcount.
  - split; [by apply logged_entries_known |].
    count_entries id id' Hcount Hm.
    destruct (state m); try done; decided; lia.
  - split; [by apply logged_entries_known |].
    count_entries id id' Hcount Hm.
    rewrite Hstate in *. decided. lia.
  - split; [by apply logged_entries_known |].
    count_entries id id' Hcount Hm.
    rewrite Hstate in *. decided. lia.
  - split; [by apply logged_entries_known |].
    count_entries id id' Hcount Hm.
    rewrite Hstate in *. decided. lia.
Qed.

Lemma List_filter_Permutation {A} (f : A -> bool) (l l' : list A) :
  l ≡ₚ l' -> List.filter f l ≡ₚ List.filter f l'.
Proof.
  induction 1 as [|x l l' _ IH|x y l|l l' l'' _ IH1 _ IH2]; cbn [List.filter].
  - done.
  - destruct (f x); by rewrite IH.
  - destruct (f x), (f y); try done. apply Permutation_swap.
  - by rewrite IH1.
Qed.

Lemma entriesOf_total db mid :
  length (List.filter (fun log => bool_decide (moverId log = mid)) (ActivityLogModel db))
  = (entriesOf db mid ActivityType.LOADING + entriesOf db mid ActivityType.MISSION_STARTED
     + entriesOf db mid ActivityType.MISSION_ENDED
     + entriesOf db mid ActivityType.UNLOADING)%nat.
Proof.
  unfold entriesOf. induction (ActivityLogModel db) as [|log logs IH]; [done |].
  cbn [List.filter]. destruct (bool_decide (moverId log = mid)); cbn [andb length]; [| done].
  rewrite IH. destruct (activityType log); decided; cbn [length]; lia.
Qed.

Lemma run_getStatsByMoverId mid db :
  run (ActivityLogRepository.getStatsByMoverId mid) db
  = (inr {| ActivityLogRepository.totalActivities :=
              (entriesOf db mid ActivityType.LOADING
               + entriesOf db mid ActivityType.MISSION_STARTED
               + entriesOf db mid ActivityType.MISSION_ENDED
               + entriesOf db mid ActivityType.UNLOADING)%nat;
            ActivityLogRepository.loadingCount := entriesOf db mid ActivityType.LOADING;
            ActivityLogRepository.missionStartedCount :=
              entriesOf db mid ActivityType.MISSION_STARTED;
            ActivityLogRepository.missionEndedCount :=
              entriesOf db mid ActivityType.MISSION_ENDED |}, db).
Proof.
  unfold ActivityLogRepository.getStatsByMoverId, ActivityLogRepository.findByMoverId.
  rewrite run_bind. cbn [run query resolve].
  assert (Hcount : forall type,
    length (List.filter (fun log => bool_decide (activityType log = type))
              (sort (fun a b : IActivityLog => (createdAt b <=? createdAt a)%Z)
                 (List.filter (fun log => bool_decide (moverId log = mid))
                              (ActivityLogModel db))))
    = entriesOf db mid type).
  { intros type. rewrite (List_filter_Permutation _ _ _ (sort_Permutation _ _)).
    by rewrite List_filter_filter. }
  rewrite !Hcount, (Permutation_length (sort_Permutation _ _)), entriesOf_total.
  reflexivity.
Qed.

(** X15. [getStatsByMoverId] only reads.  Its three counts are the numbers
    of LOADING, MISSION_STARTED and MISSION_ENDED entries that the log
    holds for the mover, and [totalActivities] is their sum plus the number
    of the mover's UNLOADING entries, for which the statistics have no
    count of their own; a mover without entries, or an unknown id, gets
    zeros. *)
Theorem getStatsByMoverId_counts mid db :
  exists stats,
    run (ActivityLogRepository.getStatsByMoverId mid) db = (inr stats, db)
    /\ ActivityLogRepository.loadingCount stats = entriesOf db mid ActivityType.LOADING
    /\ ActivityLogRepository.missionStartedCount stats
       = entriesOf db mid ActivityType.MISSION_STARTED
    /\ ActivityLogRepository.missionEndedCount stats
       = entriesOf db mid ActivityType.MISSION_ENDED
    /\ ActivityLogRepository.totalActivities stats
       = (ActivityLogRepository.loadingCount stats
          + ActivityLogRepository.missionStartedCount stats
          + ActivityLogRepository.missionEndedCount stats
          + entriesOf db mid ActivityType.UNLOADING)%nat
    /\ ((forall log, log ∈ ActivityLogModel db -> moverId log <> mid) ->
        ActivityLogRepository.totalActivities stats = 0%nat).
Proof.
  rewrite run_getStatsByMoverId. eexists. split; [reflexivity |].
  cbn. split_and!; try reflexivity.
  intros Hnone.
  assert (Hzero : forall type, entriesOf db mid type = 0%nat).
  { intros type. unfold entriesOf.
    destruct (List.filter _ _) as [|log l] eqn:Hfilter; [done |].
    assert (Hin : log ∈ log :: l) by left. rewrite <- Hfilter in Hin.
    apply elem_of_List_filter in Hin as [Hin Hof].
    apply andb_true_iff in Hof as [Hof _]. apply bool_decide_eq_true in Hof.
    by destruct (Hnone log Hin). }
  by rewrite !Hzero.
Qed.

(** X16. The statistics of a mover follow its state.  In every database
    reached by the calls, for every mover: the missions that the statistics
    count as ended are the mover's [completedMissions]; the missions
    started are one more than the missions ended while the mover is
    ON_MISSION and as many otherwise; and there are at least as many
    loadings as missions started, and more than missions ended unless the
    mover is RESTING. *)
Theorem stats_follow_the_mover calls id m :
  MagicMoverModel (execute calls emptyDB) !! id = Some m ->
  exists stats,
    run (ActivityLogRepository.getStatsByMoverId id) (execute calls emptyDB)
    = (inr stats, execute calls emptyDB)
    /\ (completedMissions m
        == inject_Z (Z.of_nat (ActivityLogRepository.missionEndedCount stats)))%Q
    /\ ActivityLogRepository.missionStartedCount stats
       = (ActivityLogRepository.missionEndedCount stats
          + if bool_decide (state m = ON_MISSION) then 1 else 0)%nat
    /\ (ActivityLogRepository.missionStartedCount stats
        <= ActivityLogRepository.loadingCount stats)%nat
    /\ (state m <> RESTING ->
        (ActivityLogRepository.missionEndedCount stats
         < ActivityLogRepository.loadingCount stats)%nat).
Proof.
  intros Hm.
  assert (Hlog : logInvariant (execute calls emptyDB)).
  { apply execute_invariant; [apply Committed_logInvariant |].
    split; [by intros log Hnil%elem_of_nil |].
    intros id' m' Hm'. cbn in Hm'. by rewrite lookup_empty in Hm'. }
  assert (Hhistory : historyInvariant (execute calls emptyDB)).
  { apply execute_invariant; [apply Committed_historyInvariant |].
    split; [by intros log Hnil%elem_of_nil |].
    intros id' m' Hm'. cbn in Hm'. by rewrite lookup_empty in Hm'. }
  destruct Hlog as [_ Hcount]. destruct (Hcount id m Hm) as [Hstarted Hloadings].
  destruct Hhistory as [_ Hmissions]. specialize (Hmissions id m Hm).
  rewrite run_getStatsByMoverId. eexists. split; [reflexivity |].
  cbn [ActivityLogRepository.missionEndedCount ActivityLogRepository.missionStartedCount
       ActivityLogRepository.loadingCount].
  split_and!.
  - exact Hmissions.
  - exact Hstarted.
  - rewrite Hstarted. destruct (state m); decided; lia.
  - intros Hstate. destruct (state m); try done; decided; lia.
Qed.

(** ** The repository methods beside the four transitions *)


Section RemoveItem.

Context (id itemId : string) (db : DB) (m : IMagicMover).
Hypothesis Hm : MagicMoverModel db !! id = Some m.
Hypothesis Hvalid : MagicMoverSchema_validate m = [].



End RemoveItem.

(** ** Two increments at once *)





(** ** The leaderboard of all movers *)

Lemma sortInsert_sorted {A} (before : A -> A -> bool) a l :
  (forall a b, before a b = false -> before b a = true) ->
  (forall a b c, before a b = true -> before b c = true -> before a c = true) ->
  StronglySorted (fun a b => before a b = true) l ->
  StronglySorted (fun a b => before a b = true) (sortInsert before a l).
Proof.
  intros Htotal Htrans. induction 1 as [|b l Hsorted IH Hall]; cbn [sortInsert].
  - repeat constructor.
  - destruct (before a b) eqn:Hab.
    + constructor; [by constructor |]. constructor; [done |].
      eapply Forall_impl; [exact Hall |]. intros c Hbc. by apply (Htrans a b c).
    + constructor; [done |]. rewrite sortInsert_Permutation.
      constructor; [by apply Htotal | done].
Qed.

Lemma sort_sorted {A} (before : A -> A -> bool) l :
  (forall a b, before a b = false -> before b a = true) ->
  (forall a b c, before a b = true -> before b c = true -> before a c = true) ->
  StronglySorted (fun a b => before a b = true) (sort before l).
Proof.
  intros Htotal Htrans. induction l as [|a l IH]; [constructor |].
  cbn [sort foldr]. by apply sortInsert_sorted.
Qed.

Lemma StronglySorted_weaken {A} (R S : A -> A -> Prop) l :
  (forall a b, R a b -> S a b) -> StronglySorted R l -> StronglySorted S l.
Proof.
  intros HRS. induction 1 as [|a l Hsorted IH Hall]; constructor; [done |].
  eapply Forall_impl; [exact Hall | apply HRS].
Qed.

(** X19. Without an item id, and with the empty string for one,
    [getTopPerformers] only reads and returns every stored mover exactly
    once, in descending order of [completedMissions]. *)
Theorem getTopPerformers_of_all itemId db :
  itemId = None \/ itemId = Some "" ->
  exists movers,
    run (MagicMoverService.getTopPerformers itemId) db = (inr movers, db)
    /\ (forall id m, (id, m) ∈ movers <-> MagicMoverModel db !! id = Some m)
    /\ NoDup movers.*1
    /\ StronglySorted missionsDescending movers.
Proof.
  intros Hitem.
  exists (sort (fun a b : string * IMagicMover =>
                  Qle_bool (completedMissions b.2) (completedMissions a.2))
               (map_to_list (MagicMoverModel db))).
  split; [by destruct Hitem as [-> | ->] |]. split_and!.
  - intros id m. by rewrite sort_Permutation, elem_of_map_to_list.
  - rewrite sort_Permutation. apply NoDup_fst_map_to_list.
  - eapply StronglySorted_weaken; [| apply sort_sorted].
    + intros a b Hle. by apply Qle_bool_iff in Hle.
    + intros a b Hle. apply Qle_bool_iff.
      destruct (Qle_bool _ _) eqn:Hba in Hle; [done |].
      apply Qlt_le_weak, Qnot_le_lt. intros Hle'%Qle_bool_iff. congruence.
    + intros a b c Hab%Qle_bool_iff Hbc%Qle_bool_iff. apply Qle_bool_iff. lra.
Qed.

(** ** What a request is answered with *)

Lemma run_handle {A T} (body : Promise A) (ok : A -> ApiResponse T)
    (failed : Error -> ApiResponse T) db :
  run (handle body ok failed) db
  = (inr (match (run body db).1 with
          | inr a => ok a
          | inl e => failed e
          end), (run body db).2).
Proof.
  unfold handle. rewrite run_tryCatch, run_bind.
  by destruct (run body db) as [[e|a] db'].
Qed.




Section Routes.

Context (show : Q -> string) (libraryMessage : Error -> string).
Context (now : Z) (id : string) (db : DB).


(** X21. A mover request in the wrong state.  On a stored mover that is not
    LOADING, start-mission and unload are answered 400 with the text of the
    invalid-transition error; on a stored mover that is not ON_MISSION,
    end-mission is answered 500, not 400, because the text of the service's
    own check (must be on mission) is none of those the controller looks
    for.  Nothing is written in either case. *)
Theorem wrong_state_is_answered m :
  MagicMoverModel db !! id = Some m ->
  (state m <> LOADING ->
   run (MagicMoverRoute.startMission show libraryMessage now id) db
   = (inr {| success := false; status := 400;
             responseMessage := "Invalid state transition: Cannot start_mission from "
                                ++ MagicMoverState_value (state m) ++ " to on-mission";
             data := None |}, db)
   /\ run (MagicMoverRoute.unload show libraryMessage now id) db
      = (inr {| success := false; status := 400;
                responseMessage := "Invalid state transition: Cannot unload from "
                                   ++ MagicMoverState_value (state m) ++ " to resting";
                data := None |}, db))
  /\ (state m <> ON_MISSION ->
      run (MagicMoverRoute.endMission show libraryMessage now id) db
      = (inr {| success := false; status := 500;
                responseMessage := "Magic Mover must be on mission to end a mission";
                data := None |}, db)).
Proof.
  intros Hm. split_and!.
  - intros Hstate. split.
    + unfold MagicMoverRoute.startMission.
      rewrite run_handle, run_startMission, Hm. by destruct (state m).
    + unfold MagicMoverRoute.unload.
      rewrite run_handle, run_unloadItems, Hm. by destruct (state m).
  - intros Hstate. unfold MagicMoverRoute.endMission.
    rewrite run_handle, run_endMission, Hm. by destruct (state m).
Qed.


(** The answer to a failed call: whichever texts the message includes,
    the status is one of the four. *)
Ltac failure_status :=
  cbn zeta;
  generalize (errorMessage show libraryMessage);
  intros text;
  repeat match goal with
         | |- context [includes ?needle ?haystack] =>
             destruct (includes needle haystack); cbn [orb]
         end;
  unfold ResponseUtil.error; cbn [success data status];
  split_and!; try done; rewrite !elem_of_cons; tauto.

(** X23. The routes never throw, and a request is answered as a success
    exactly when the service call succeeded: every mover request (load:
    with a list that is not empty) is answered with a response, the
    database is left as the service call leaves it, the answer is 200 with
    the mover that the service returned when the call succeeded, and
    otherwise a failure without data whose status is 404, 400, 409 or
    500. *)
Theorem mover_request_is_answered :
  (forall itemIds, itemIds <> [] ->
     answered db (MagicMoverRoute.load show libraryMessage now id itemIds)
              (MagicMoverService.loadItems now id itemIds) "Items loaded successfully")
  /\ answered db (MagicMoverRoute.startMission show libraryMessage now id)
              (MagicMoverService.startMission now id) "Mission started successfully"
  /\ answered db (MagicMoverRoute.endMission show libraryMessage now id)
              (MagicMoverService.endMission now id) "Mission ended successfully"
  /\ answered db (MagicMoverRoute.unload show libraryMessage now id)
              (MagicMoverService.unloadItems now id) "Items unloaded successfully".
Proof.
  unfold answered. split_and!.
  - intros [|i itemIds] Hne; [done |]. unfold MagicMoverRoute.load. cbn [length Nat.eqb].
    rewrite run_handle. eexists. split; [reflexivity |].
    destruct (run _ db).1 as [e|magicMover]; [| done]. failure_status.
  - unfold MagicMoverRoute.startMission.
    rewrite run_handle. eexists. split; [reflexivity |].
    destruct (run _ db).1 as [e|magicMover]; [| done]. failure_status.
  - unfold MagicMoverRoute.endMission.
    rewrite run_handle. eexists. split; [reflexivity |].
    destruct (run _ db).1 as [e|magicMover]; [| done]. failure_status.
  - unfold MagicMoverRoute.unload.
    rewrite run_handle. eexists. split; [reflexivity |].
    destruct (run _ db).1 as [e|magicMover]; [| done]. failure_status.
Qed.



End Routes.

(** ** The further properties on the example databases *)

Lemma reachable_movers_wellformed_witness :
  MagicMoverModel (execute loadingCalls emptyDB) !! "m1" = Some gandalfLoading
  /\ (0 <= weightLimit gandalfLoading /\ 0 <= currentWeight gandalfLoading
      /\ 0 <= completedMissions gandalfLoading)%Q.
Proof.
  split; [vm_compute; reflexivity |].
  apply (reachable_movers_wellformed loadingCalls "m1" gandalfLoading).
  vm_compute. reflexivity.
Defined.

Lemma reachable_items_valid_witness :
  MagicItemModel (execute loadingCalls emptyDB) !! "i1"
  = Some {| MagicItem.name := "Phoenix Feather"; MagicItem.weight := 1 # 2 |}
  /\ (0 < 1 # 2)%Q.
Proof.
  split; [vm_compute; reflexivity |].
  apply (reachable_items_valid loadingCalls "i1"
           {| MagicItem.name := "Phoenix Feather"; MagicItem.weight := 1 # 2 |}).
  vm_compute. reflexivity.
Defined.






Lemma saved_state_is_target_state_witness :
  MagicMoverModel loadingDB !! "m1" = Some gandalfLoading
  /\ run (MagicMoverService.startMission 2 "m1") loadingDB = (inr gandalfOnMission, onMissionDB)
  /\ MagicMoverStateMachine.getTargetState (state gandalfLoading) "start_mission"
     = Some (state gandalfOnMission).
Proof.
  split; [vm_compute; reflexivity |]. split; [vm_compute; reflexivity |].
  apply (saved_state_is_target_state 2 "m1" loadingDB gandalfLoading gandalfOnMission
           onMissionDB); vm_compute; reflexivity.
Defined.

Lemma stats_follow_the_mover_witness :
  MagicMoverModel (execute loadingCalls emptyDB) !! "m1" = Some gandalfLoading
  /\ exists stats,
       run (ActivityLogRepository.getStatsByMoverId "m1") (execute loadingCalls emptyDB)
       = (inr stats, execute loadingCalls emptyDB)
       /\ (ActivityLogRepository.missionEndedCount stats
           < ActivityLogRepository.loadingCount stats)%nat.
Proof.
  split; [vm_compute; reflexivity |].
  destruct (stats_follow_the_mover loadingCalls "m1" gandalfLoading)
    as (stats & Hrun & _ & _ & _ & Hloading); [vm_compute; reflexivity |].
  exists stats. split; [exact Hrun | by apply Hloading].
Defined.



Lemma getTopPerformers_of_all_witness :
  exists movers,
    run (MagicMoverService.getTopPerformers (Some "")) leaderboardDB
    = (inr movers, leaderboardDB)
    /\ (forall id m, (id, m) ∈ movers <-> MagicMoverModel leaderboardDB !! id = Some m)
    /\ NoDup movers.*1
    /\ StronglySorted missionsDescending movers.
Proof. apply (getTopPerformers_of_all (Some "") leaderboardDB). by right. Defined.


Lemma wrong_state_is_answered_witness :
  MagicMoverModel loadingDB !! "m1" = Some gandalfLoading
  /\ run (MagicMoverRoute.endMission showNothing noLibraryMessage 3 "m1") loadingDB
     = (inr {| success := false; status := 500;
               responseMessage := "Magic Mover must be on mission to end a mission";
               data := None |}, loadingDB).
Proof.
  split; [vm_compute; reflexivity |].
  apply (wrong_state_is_answered showNothing noLibraryMessage 3 "m1" loadingDB
           gandalfLoading); [vm_compute; reflexivity | discriminate].
Defined.


Lemma committed_transition_logs_once_witness :
  run (MagicMoverService.startMission 2 "m1") loadingDB = (inr gandalfOnMission, onMissionDB)
  /\ transitionLogged ActivityType.MISSION_STARTED 2 "m1" loadingDB onMissionDB
                      gandalfOnMission.
Proof.
  split; [vm_compute; reflexivity |].
  apply (committed_transition_logs_once 2 "m1" loadingDB gandalfOnMission onMissionDB).
  vm_compute. reflexivity.
Defined.
